(** * Pod-autoscaling predictor: the online inference service

    A shallow embedding of [ai-models/Deployment/main.py]: the Prometheus
    client ([query_metric], [get_workload_metrics]), the feature aligner
    ([build_feature_vector]), the prediction endpoint
    ([predict_from_prometheus]), the KEDA bridge ([keda_metric]), the health
    endpoint ([health_check]), the background loop ([_runner]), the metrics
    endpoint ([current_metrics]) and startup ([load_model_and_features],
    [_load_feature_names_from_metadata], [_startup]).

    Python floats are IEEE-754 binary64 values, modelled by [spec_float]
    with [prec = 53] and [emax = 1024]; Python ints are [Z].  Exceptions are
    values of [exn]; every endpoint is a function from the process state to
    an outcome and a new state, so what was mutated before an exception was
    raised stays mutated. *)

From Stdlib Require Import ZArith QArith Qabs List String DecimalString Bool Lia.
From Stdlib Require Import Floats.SpecFloat.
Import ListNotations.
Set Warnings "-register-all".
Local Open Scope string_scope.
Local Open Scope Z_scope.

(** ** Python floats *)

Module PyFloat.

Definition prec : Z := 53.
Definition emax : Z := 1024.

Definition float := spec_float.

Definition zero : float := S754_zero false.

(** The literal [1e-6]: 4722366482869645 * 2^-72. *)
Definition eps : float := S754_finite false 4722366482869645 (-72).

(** The literal [0.95]: 8556839292003942 * 2^-53. *)
Definition default_confidence : float := S754_finite false 8556839292003942 (-53).

Definition add (x y : float) : float := SFadd prec emax x y.
Definition div (x y : float) : float := SFdiv prec emax x y.
Definition ltb (x y : float) : bool := SFltb x y.
Definition leb (x y : float) : bool := SFleb x y.

Definition is_zero (x : float) : bool :=
  match x with S754_zero _ => true | _ => false end.

Definition is_nan (x : float) : bool :=
  match x with S754_nan => true | _ => false end.

Definition is_finite (x : float) : bool :=
  match x with S754_zero _ | S754_finite _ _ _ => true | _ => false end.

(** [float(n)] for a Python int: the nearest binary64, ties to even. *)
Definition of_Z (n : Z) : float := binary_normalize prec emax n 0 false.

(** The rational a finite float stands for. *)
Definition to_Q (x : float) : Q :=
  match x with
  | S754_finite s m e =>
      let n := if s then Z.neg m else Z.pos m in
      if 0 <=? e then inject_Z (n * 2 ^ e) else Qmake n (Z.to_pos (2 ^ (- e)))
  | _ => 0%Q
  end.

(** [n / d] rounded to the nearest integer, ties to the even one ([0 < d]). *)
Definition div_half_even (n d : Z) : Z :=
  let q := n / d in
  let r := n mod d in
  match 2 * r ?= d with
  | Lt => q
  | Gt => q + 1
  | Eq => if Z.even q then q else q + 1
  end.

(** The integer [round(x)] returns for a finite float. *)
Definition round_half_even (x : float) : Z :=
  match x with
  | S754_finite s m e =>
      let n := if s then Z.neg m else Z.pos m in
      if 0 <=? e then n * 2 ^ e else div_half_even n (2 ^ (- e))
  | _ => 0
  end.

End PyFloat.

Import PyFloat.

(** ** Exceptions and outcomes *)

Inductive exn : Type :=
| HTTPException (status_code : Z) (detail : string)
| ValueError (msg : string)
| ZeroDivisionError (msg : string)
| OverflowError (msg : string)
| KeyError (key : string)
| IndexError (msg : string)
| TypeError (msg : string)
| AttributeError (msg : string)
| RequestError (msg : string)        (* httpx: connection refused, timeout *)
| HTTPStatusError (status_code : Z)  (* httpx: raise_for_status *)
| RuntimeError (msg : string).       (* any other subclass of Exception *)

(** All of these derive from [Exception]; what does not (cancellation,
    interrupts) is outside the model. *)

(** [str(ex)] as it is spliced into f-strings. *)
Definition exn_str (e : exn) : string :=
  match e with
  | HTTPException _ detail => detail
  | ValueError msg | ZeroDivisionError msg | OverflowError msg
  | IndexError msg | TypeError msg | AttributeError msg
  | RequestError msg | RuntimeError msg => msg
  | KeyError key => "'" ++ key ++ "'"
  | HTTPStatusError _ => "HTTP status error"
  end.

Inductive result (A : Type) : Type :=
| Ok (a : A)
| Raise (e : exn).
Arguments Ok {A} a.
Arguments Raise {A} e.

(** ** What [response.json()] returns *)

Inductive json : Type :=
| JNull
| JBool (b : bool)
| JInt (n : Z)
| JFloat (x : float)
| JStr (s : string)
| JList (items : list json)
| JDict (items : list (string * json)).

Fixpoint lookup {A} (key : string) (items : list (string * A)) : option A :=
  match items with
  | [] => None
  | (k, v) :: rest => if String.eqb key k then Some v else lookup key rest
  end.

Module Py.

(** [d.get(key)] *)
Definition get (d : json) (key : string) : result json :=
  match d with
  | JDict items => Ok (match lookup key items with Some v => v | None => JNull end)
  | _ => Raise (AttributeError "object has no attribute 'get'")
  end.

(** [d[key]] for a string [key] *)
Definition getitem (d : json) (key : string) : result json :=
  match d with
  | JDict items =>
      match lookup key items with Some v => Ok v | None => Raise (KeyError key) end
  | JList _ => Raise (TypeError "list indices must be integers or slices, not str")
  | JStr _ => Raise (TypeError "string indices must be integers")
  | _ => Raise (TypeError "object is not subscriptable")
  end.

(** [v[i]] for a literal index [i] (0 or 1 in this program) *)
Definition getindex (v : json) (i : nat) : result json :=
  match v with
  | JList items =>
      match nth_error items i with
      | Some x => Ok x
      | None => Raise (IndexError "list index out of range")
      end
  | JStr s =>
      match String.get i s with
      | Some c => Ok (JStr (String c EmptyString))
      | None => Raise (IndexError "string index out of range")
      end
  | JDict _ => Raise (KeyError (if Nat.eqb i 0 then "0" else "1"))
  | _ => Raise (TypeError "object is not subscriptable")
  end.

(** Truth value of an object in a boolean context. *)
Definition truthy (v : json) : bool :=
  match v with
  | JNull => false
  | JBool b => b
  | JInt n => negb (n =? 0)
  | JFloat x => negb (is_zero x)
  | JStr s => negb (String.eqb s "")
  | JList items => match items with [] => false | _ => true end
  | JDict items => match items with [] => false | _ => true end
  end.

(** [v == s] for a string literal [s] *)
Definition eq_str (v : json) (s : string) : bool :=
  match v with JStr t => String.eqb t s | _ => false end.

(** [float(v)]; [parse] is the interpreter's conversion of a [str]. *)
Definition to_float (parse : string -> option float) (v : json) : result float :=
  match v with
  | JFloat x => Ok x
  | JInt n =>
      match of_Z n with
      | S754_infinity _ => Raise (OverflowError "int too large to convert to float")
      | x => Ok x
      end
  | JBool b => Ok (of_Z (if b then 1 else 0))
  | JStr s =>
      match parse s with
      | Some x => Ok x
      | None => Raise (ValueError "could not convert string to float")
      end
  | _ => Raise (TypeError "float() argument must be a string or a real number")
  end.

(** [x / y] on floats *)
Definition truediv (x y : float) : result float :=
  if is_zero y then Raise (ZeroDivisionError "float division by zero")
  else Ok (div x y).

(** [round(x)] on a float, with no [ndigits] *)
Definition round (x : float) : result Z :=
  match x with
  | S754_nan => Raise (ValueError "cannot convert float NaN to integer")
  | S754_infinity _ => Raise (OverflowError "cannot convert float infinity to integer")
  | _ => Ok (round_half_even x)
  end.

End Py.

(** ** The process and its collaborators *)

Record PrometheusMetrics : Type := {
  cpu_usage : float;
  memory_usage : float;
  request_rate : float;
  queue_length : float;
  response_time : float;
  active_connections : float
}.

Record PredictionResponse : Type := {
  predicted_pod_count : Z;
  confidence : float;
  timestamp : string;
  metrics_used : PrometheusMetrics;
  model_version : string
}.

(** Its [timestamp] field is [keda_timestamp] here, field names being
    global. *)
Record KEDAMetricResponse : Type := {
  metric_value : Z;
  keda_timestamp : string
}.

Record HealthResponse : Type := {
  status : string;
  model_loaded : bool;
  prometheus_connected : bool;
  expected_features : nat;
  health_timestamp : string
}.

(** A number as [model.predict(x)[0]] yields it: a regressor returns a
    float, a classifier an integer label. *)
Inductive num : Type :=
| NInt (n : Z)
| NFloat (x : float).

(** The opaque predictor: [predict x] is [model.predict(x)[0]],
    [predict_proba], when the model has the attribute, the flattened
    probability array, and [truth] is [bool(model)], the truth value the
    object has in a boolean context: [Ok true] for an estimator that
    defines neither [__bool__] nor [__len__], what these return or raise
    otherwise. *)
Record Model : Type := {
  predict : list float -> result num;
  predict_proba : option (list float -> result (list float));
  truth : result bool
}.

(** What one request to the metrics store comes to, up to
    [response.json()]. *)
Inductive http_outcome : Type :=
| Unreachable (why : string)   (* [client.get] raised: refused, timed out *)
| BadStatus (code : Z)         (* [raise_for_status] raised *)
| BadBody                      (* [json()] raised: the body is not JSON *)
| Body (data : json).

Inductive log_msg : Type :=
| PrometheusQueryFailed (query : string) (ex : exn)
| BackgroundPredictionError (ex : exn)
| KedaMetricFailed (detail : string)
| Predicted (pods : Z) (conf : float).

(** What the process does to the outside, most recent first. *)
Inductive event : Type :=
| EvQuery (query : string)
| EvPredict (x : list float)
| EvPredictProba (x : list float)
| EvUtcnow
| EvSleep (seconds : Z)
| EvLogError (msg : log_msg)
| EvLogInfo (msg : log_msg).

(** The collaborators: environment variables, the metrics store, the
    clock and the interpreter's [float(str)].  The store and the clock
    answer by logical time, the number of events so far. *)
Record Env : Type := {
  TARGET_NAMESPACE : string;
  TARGET_DEPLOYMENT : string;
  prometheus : nat -> string -> http_outcome;
  utcnow_isoformat : nat -> string;
  float_of_str : string -> option float
}.

(** The module globals and the metrics registry. *)
Record State : Type := {
  model : option Model;
  expected_feature_names : list string;
  prediction_counter : nat;
  prediction_gauge : float;
  model_confidence_gauge : float;
  trace : list event
}.

Definition now (st : State) : nat := List.length (trace st).

(** ** Computations: state passing with exceptions *)

Definition M (A : Type) : Type := State -> result A * State.

Definition ret {A} (a : A) : M A := fun st => (Ok a, st).

Definition raise {A} (e : exn) : M A := fun st => (Raise e, st).

Definition bind {A B} (c : M A) (k : A -> M B) : M B :=
  fun st =>
    match c st with
    | (Ok a, st') => k a st'
    | (Raise e, st') => (Raise e, st')
    end.

Definition lift {A} (r : result A) : M A := fun st => (r, st).

(** [try: c  except <class> as ex: h ex] *)
Definition try_except {A} (c : M A) (class : exn -> bool) (h : exn -> M A) : M A :=
  fun st =>
    match c st with
    | (Ok a, st') => (Ok a, st')
    | (Raise e, st') => if class e then h e st' else (Raise e, st')
    end.

Definition emit (ev : event) : M unit :=
  fun st =>
    (Ok tt, {| model := model st;
               expected_feature_names := expected_feature_names st;
               prediction_counter := prediction_counter st;
               prediction_gauge := prediction_gauge st;
               model_confidence_gauge := model_confidence_gauge st;
               trace := ev :: trace st |}).

Declare Scope py_scope.
Delimit Scope py_scope with py.
Notation "x <- c ;; k" := (bind c (fun x => k))
  (at level 61, c at next level, right associativity) : py_scope.
Notation "c ;; k" := (bind c (fun _ => k))
  (at level 61, right associativity) : py_scope.
Local Open Scope py_scope.

(** The pure fragment: [result] alone. *)
Definition rbind {A B} (r : result A) (k : A -> result B) : result B :=
  match r with Ok a => k a | Raise e => Raise e end.

Notation "x <-- r ;;; k" := (rbind r (fun x => k))
  (at level 61, r at next level, right associativity) : py_scope.

Definition Exception (e : exn) : bool := true.

Definition is_HTTPException (e : exn) : bool :=
  match e with HTTPException _ _ => true | _ => false end.

Definition is_ValueError (e : exn) : bool :=
  match e with ValueError _ => true | _ => false end.

Definition utcnow (env : Env) : M string :=
  fun st => (emit EvUtcnow ;; ret (utcnow_isoformat env (now st))) st.

Definition sleep (seconds : Z) : M unit := emit (EvSleep seconds).

Definition logger_error (msg : log_msg) : M unit := emit (EvLogError msg).
Definition logger_info (msg : log_msg) : M unit := emit (EvLogInfo msg).

(** [asyncio.gather] over [tasks]: they run in list order, the first
    exception, if any, is the gather's. *)
Fixpoint gather {A} (tasks : list (M A)) : M (list A) :=
  match tasks with
  | [] => ret []
  | t :: rest => x <- t ;; xs <- gather rest ;; ret (x :: xs)
  end.

(** ** Prometheus HTTP client helper *)

Module PrometheusClient.

(** The body of the [try] of [query_metric] once the request has come
    back: [Ok (Some x)] is [return float(...)], [Ok None] falls through
    to the end of the function. *)
Definition read_response (parse : string -> option float) (o : http_outcome)
  : result (option float) :=
  match o with
  | Unreachable why => Raise (RequestError why)
  | BadStatus code => Raise (HTTPStatusError code)
  | BadBody => Raise (ValueError "Expecting value")
  | Body data =>
      st <-- Py.get data "status" ;;;
      if Py.eq_str st "success" then
        d <-- Py.getitem data "data" ;;;
        r <-- Py.getitem d "result" ;;;
        if Py.truthy r then
          r0 <-- Py.getindex r 0 ;;;
          v <-- Py.getitem r0 "value" ;;;
          v1 <-- Py.getindex v 1 ;;;
          x <-- Py.to_float parse v1 ;;;
          Ok (Some x)
        else Ok None
      else Ok None
  end.

(** Query a single metric from Prometheus. *)
Definition query_metric (env : Env) (query : string) : M float :=
  r <- try_except
         (fun st => (emit (EvQuery query) ;;
                     lift (read_response (float_of_str env)
                             (prometheus env (now st) query))) st)
         Exception
         (fun ex => logger_error (PrometheusQueryFailed query ex) ;; ret None) ;;
  match r with
  | Some x => ret x
  | None => ret zero  (* graceful fallback *)
  end.

Definition dq : string := String (Ascii.ascii_of_nat 34) "".

Definition selector_pod (env : Env) : string :=
  "{namespace=" ++ dq ++ TARGET_NAMESPACE env ++ dq ++ ", pod=~" ++ dq
    ++ TARGET_DEPLOYMENT env ++ ".*" ++ dq ++ "}".

Definition selector_job (env : Env) : string :=
  "{namespace=" ++ dq ++ TARGET_NAMESPACE env ++ dq ++ ", job=" ++ dq
    ++ TARGET_DEPLOYMENT env ++ dq ++ "}".

Definition queries (env : Env) : list (string * string) :=
  [ ("cpu_usage",
     "avg(rate(container_cpu_usage_seconds_total" ++ selector_pod env ++ "[5m])) * 100");
    ("memory_usage",
     "avg(container_memory_working_set_bytes" ++ selector_pod env ++ ") / 1024 / 1024");
    ("request_rate",
     "sum(rate(http_requests_total" ++ selector_pod env ++ "[5m]))");
    ("queue_length",
     "avg(queue_size" ++ selector_job env ++ ")");
    ("response_time",
     "avg(http_request_duration_seconds" ++ selector_pod env ++ ")");
    ("active_connections",
     "sum(active_connections" ++ selector_pod env ++ ")") ].

(** The [PrometheusMetrics] constructor on keyword arguments: every field
    is required. *)
Definition PrometheusMetrics_of (kwargs : list (string * float))
  : result PrometheusMetrics :=
  let field name :=
    match lookup name kwargs with
    | Some x => Ok x
    | None => Raise (ValueError "field required")
    end in
  c <-- field "cpu_usage" ;;;
  m <-- field "memory_usage" ;;;
  r <-- field "request_rate" ;;;
  q <-- field "queue_length" ;;;
  t <-- field "response_time" ;;;
  a <-- field "active_connections" ;;;
  Ok {| cpu_usage := c; memory_usage := m; request_rate := r;
        queue_length := q; response_time := t; active_connections := a |}.

(** Collect all base metrics we know how to compute in real time. *)
Definition get_workload_metrics (env : Env) : M PrometheusMetrics :=
  let tasks := map (fun kq => query_metric env (snd kq)) (queries env) in
  results <- gather tasks ;;
  lift (PrometheusMetrics_of (combine (map fst (queries env)) results)).

End PrometheusClient.

(** ** Model / feature helpers *)

(** [vec[idx] = v], for an index in range. *)
Fixpoint setitem {A} (vec : list A) (idx : nat) (v : A) : list A :=
  match vec, idx with
  | [], _ => []
  | _ :: rest, O => v :: rest
  | x :: rest, S i => x :: setitem rest i v
  end.

Definition enumerate {A} (l : list A) : list (nat * A) :=
  combine (seq 0 (List.length l)) l.

(** The dict [base] of [build_feature_vector]; building it divides. *)
Definition base_metrics (metrics : PrometheusMetrics)
  : result (list (string * float)) :=
  ratio <-- Py.truediv (cpu_usage metrics) (add (memory_usage metrics) eps) ;;;
  Ok [ ("cpu_usage", cpu_usage metrics);
       ("memory_usage", memory_usage metrics);
       ("request_rate", request_rate metrics);
       ("queue_length", queue_length metrics);
       ("response_time", response_time metrics);
       ("active_connections", active_connections metrics);
       ("cpu_memory_ratio", ratio);
       ("network_total", request_rate metrics) ].

(** Create the feature vector in the exact order the model expects; the
    global [expected_feature_names] comes in as [names]. *)
Definition build_feature_vector (names : list string) (metrics : PrometheusMetrics)
  : result (list float) :=
  base <-- base_metrics metrics ;;;
  let vec := repeat zero (List.length names) in
  Ok (fold_left
        (fun vec (p : nat * string) =>
           let (idx, fname) := p in
           match lookup fname base with
           | Some v => setitem vec idx v
           | None => vec  (* leave as 0 *)
           end)
        (enumerate names) vec).

(** ** The metrics registry *)

Definition gets {A} (f : State -> A) : M A := fun st => (Ok (f st), st).

Definition prediction_counter_inc : M unit :=
  fun st =>
    (Ok tt, {| model := model st;
               expected_feature_names := expected_feature_names st;
               prediction_counter := S (prediction_counter st);
               prediction_gauge := prediction_gauge st;
               model_confidence_gauge := model_confidence_gauge st;
               trace := trace st |}).

(** [float(n)] for a Python int: the nearest binary64 number, and
    [OverflowError] when the int is beyond the range of the format. *)
Definition float_of_int (n : Z) : result float :=
  match of_Z n with
  | S754_infinity _ => Raise (OverflowError "int too large to convert to float")
  | x => Ok x
  end.

(** [Gauge.set(value)] stores [float(value)]. *)
Definition prediction_gauge_set (pods : Z) : M unit :=
  value <- lift (float_of_int pods) ;;
  fun st =>
    (Ok tt, {| model := model st;
               expected_feature_names := expected_feature_names st;
               prediction_counter := prediction_counter st;
               prediction_gauge := value;
               model_confidence_gauge := model_confidence_gauge st;
               trace := trace st |}).

Definition model_confidence_gauge_set (conf : float) : M unit :=
  fun st =>
    (Ok tt, {| model := model st;
               expected_feature_names := expected_feature_names st;
               prediction_counter := prediction_counter st;
               prediction_gauge := prediction_gauge st;
               model_confidence_gauge := conf;
               trace := trace st |}).

(** ** Calls into the predictor and numpy *)

Definition model_predict (mdl : Model) (x : list float) : M num :=
  emit (EvPredict x) ;; lift (predict mdl x).

Definition model_predict_proba (pp : list float -> result (list float))
    (x : list float) : M (list float) :=
  emit (EvPredictProba x) ;; lift (pp x).

(** The larger of two floats as [np.max] folds them: a NaN wins. *)
Definition fmax (a b : float) : float :=
  if is_nan a then a else if is_nan b then b else if ltb a b then b else a.

Definition np_max (xs : list float) : result float :=
  match xs with
  | [] => Raise (ValueError "zero-size array to reduction operation maximum")
  | x :: rest => Ok (fold_left fmax rest x)
  end.

(** [max(1, int(round(raw_pred)))] *)
Definition replica_count (raw_pred : num) : result Z :=
  n <-- match raw_pred with
        | NInt n => Ok n
        | NFloat x => Py.round x
        end ;;;
  Ok (Z.max 1 n).

(** ** Core prediction endpoints *)

Definition predict_from_prometheus (env : Env) : M PredictionResponse :=
  mdl_opt <- gets model ;;
  names <- gets expected_feature_names ;;
  match mdl_opt, names with
  | Some mdl, _ :: _ =>
      metrics <- PrometheusClient.get_workload_metrics env ;;
      names <- gets expected_feature_names ;;
      feature_vector <- lift (build_feature_vector names metrics) ;;
      raw_pred <- try_except (model_predict mdl feature_vector) is_ValueError
                    (fun ex => raise (HTTPException 500
                                        ("Prediction failed: " ++ exn_str ex))) ;;
      (* Confidence: best effort *)
      conf <- match predict_proba mdl with
              | Some pp =>
                  try_except
                    (p <- model_predict_proba pp feature_vector ;; lift (np_max p))
                    Exception
                    (fun _ => ret default_confidence)
              | None => ret default_confidence
              end ;;
      pods <- lift (replica_count raw_pred) ;;
      (* Update custom Prometheus metrics *)
      prediction_counter_inc ;;
      prediction_gauge_set pods ;;
      model_confidence_gauge_set conf ;;
      logger_info (Predicted pods conf) ;;
      ts <- utcnow env ;;
      ret {| predicted_pod_count := pods;
             confidence := conf;
             timestamp := ts;
             metrics_used := metrics;
             model_version := "1.1.0" |}
  | _, _ =>
      raise (HTTPException 503 "Model not loaded or feature names unavailable")
  end.

Definition keda_metric (env : Env) : M KEDAMetricResponse :=
  try_except
    (prediction <- predict_from_prometheus env ;;
     ret {| metric_value := predicted_pod_count prediction;
            keda_timestamp := timestamp prediction |})
    is_HTTPException
    (fun http_ex =>
       logger_error (KedaMetricFailed (exn_str http_ex)) ;;
       (* Safe fallback: 1 replica *)
       ts <- utcnow env ;;
       ret {| metric_value := 1; keda_timestamp := ts |}).

(** ** Utility endpoints *)

Definition health_check (env : Env) : M HealthResponse :=
  prom_ok <- try_except
               (PrometheusClient.query_metric env "up" ;; ret true)
               Exception
               (fun _ => ret false) ;;
  mdl <- gets model ;;
  (* [model and prom_ok]: the truth value of the model, then [prom_ok] *)
  healthy <- match mdl with
             | Some m => b <- lift (truth m) ;; ret (b && prom_ok)
             | None => ret false
             end ;;
  names <- gets expected_feature_names ;;
  ts <- utcnow env ;;
  ret {| status := if healthy then "healthy" else "unhealthy";
         model_loaded := match mdl with Some _ => true | None => false end;
         prometheus_connected := prom_ok;
         expected_features := List.length names;
         health_timestamp := ts |}.

(** ** The background prediction loop *)

(** One turn of the [while True] of [_runner]. *)
Definition runner_iteration (env : Env) : M unit :=
  try_except
    (mdl <- gets model ;;
     match mdl with
     | Some _ => predict_from_prometheus env ;; ret tt
     | None => ret tt
     end)
    Exception
    (fun ex => logger_error (BackgroundPredictionError ex)) ;;
  sleep 30.

(** [_runner], cut after [fuel] turns: an exception leaving a turn ends
    the loop there; [Ok tt] means the loop is still going. *)
Fixpoint _runner (fuel : nat) (env : Env) : M unit :=
  match fuel with
  | O => ret tt
  | S n => runner_iteration env ;; _runner n env
  end.

(** ** Vocabulary of the specification *)

(** What a query contributes to the snapshot, given what came back. *)
Definition metric_of (env : Env) (o : http_outcome) : float :=
  match PrometheusClient.read_response (float_of_str env) o with
  | Ok (Some x) => x
  | _ => zero
  end.

(** The store answered with a well-formed instant vector whose first
    sample reads [x]. *)
Inductive answers (env : Env) : http_outcome -> float -> Prop :=
| answers_sample : forall top dat first rest ts v more x,
    lookup "status" top = Some (JStr "success") ->
    lookup "data" top = Some (JDict dat) ->
    lookup "result" dat = Some (JList (JDict first :: rest)) ->
    lookup "value" first = Some (JList (ts :: v :: more)) ->
    Py.to_float (float_of_str env) v = Ok x ->
    answers env (Body (JDict top)) x.

(** The query failed: error, timeout, or a response that cannot be read. *)
Inductive query_fails (env : Env) : http_outcome -> Prop :=
| fails_unreachable : forall why, query_fails env (Unreachable why)
| fails_status : forall code, query_fails env (BadStatus code)
| fails_not_json : query_fails env BadBody
| fails_malformed : forall data e,
    PrometheusClient.read_response (float_of_str env) (Body data) = Raise e ->
    query_fails env (Body data).

(** The store answered, but without data: a status other than
    ["success"], or an empty result list. *)
Inductive no_data : http_outcome -> Prop :=
| no_data_status : forall top,
    (forall s, lookup "status" top = Some s -> Py.eq_str s "success" = false) ->
    no_data (Body (JDict top))
| no_data_empty : forall top dat,
    lookup "status" top = Some (JStr "success") ->
    lookup "data" top = Some (JDict dat) ->
    lookup "result" dat = Some (JList []) ->
    no_data (Body (JDict top)).

(** A field of the snapshot reads the store's answer [o]. *)
Definition reads (env : Env) (o : http_outcome) (x : float) : Prop :=
  (query_fails env o -> x = zero) /\ (forall v, answers env o v -> x = v).

(** The part of the state only the registry and the loader write. *)
Definition same_globals (st st' : State) : Prop :=
  model st' = model st /\ expected_feature_names st' = expected_feature_names st.

Definition same_registry (st st' : State) : Prop :=
  prediction_counter st' = prediction_counter st /\
  prediction_gauge st' = prediction_gauge st /\
  model_confidence_gauge st' = model_confidence_gauge st.

Definition count_events (p : event -> bool) (st : State) : nat :=
  List.length (filter p (trace st)).

Definition is_predict (ev : event) : bool :=
  match ev with EvPredict _ => true | _ => false end.

Definition is_query (ev : event) : bool :=
  match ev with EvQuery _ => true | _ => false end.

Definition is_sleep30 (ev : event) : bool :=
  match ev with EvSleep s => s =? 30 | _ => false end.

Definition is_background_error (ev : event) : bool :=
  match ev with EvLogError (BackgroundPredictionError _) => true | _ => false end.

(** ** Symbolic runs *)

(** [st] after the events [evs], most recent first. *)
Definition push (evs : list event) (st : State) : State :=
  {| model := model st;
     expected_feature_names := expected_feature_names st;
     prediction_counter := prediction_counter st;
     prediction_gauge := prediction_gauge st;
     model_confidence_gauge := model_confidence_gauge st;
     trace := (evs ++ trace st)%list |}.

(** The registry after one more served prediction was counted. *)
Definition counted (st : State) : State :=
  {| model := model st;
     expected_feature_names := expected_feature_names st;
     prediction_counter := S (prediction_counter st);
     prediction_gauge := prediction_gauge st;
     model_confidence_gauge := model_confidence_gauge st;
     trace := trace st |}.

(** The registry after one published prediction. *)
Definition publish (pods : float) (conf : float) (st : State) : State :=
  {| model := model st;
     expected_feature_names := expected_feature_names st;
     prediction_counter := S (prediction_counter st);
     prediction_gauge := pods;
     model_confidence_gauge := conf;
     trace := trace st |}.

Definition query_events (env : Env) (query : string) (st : State) : list event :=
  match PrometheusClient.read_response (float_of_str env)
          (prometheus env (now st) query) with
  | Raise ex => [EvLogError (PrometheusQueryFailed query ex); EvQuery query]
  | Ok _ => [EvQuery query]
  end.

Definition after_query (env : Env) (query : string) (st : State) : State :=
  push (query_events env query st) st.

Fixpoint readings (env : Env) (qs : list string) (st : State) : list float :=
  match qs with
  | [] => []
  | q :: rest =>
      metric_of env (prometheus env (now st) q)
        :: readings env rest (after_query env q st)
  end.

Fixpoint after_queries (env : Env) (qs : list string) (st : State) : State :=
  match qs with
  | [] => st
  | q :: rest => after_queries env rest (after_query env q st)
  end.


Definition query_strings (env : Env) : list string :=
  map snd (PrometheusClient.queries env).

(** The query expression sent for the metric [name]. *)
Definition query_named (env : Env) (name : string) : string :=
  match lookup name (PrometheusClient.queries env) with
  | Some q => q
  | None => ""
  end.

(** The snapshot an acquisition started in [st] returns. *)
Definition snapshot (env : Env) (st : State) : PrometheusMetrics :=
  let r := readings env (query_strings env) st in
  {| cpu_usage := nth 0 r zero;
     memory_usage := nth 1 r zero;
     request_rate := nth 2 r zero;
     queue_length := nth 3 r zero;
     response_time := nth 4 r zero;
     active_connections := nth 5 r zero |}.

Definition after_acquisition (env : Env) (st : State) : State :=
  after_queries env (query_strings env) st.

(** The confidence step of [predict_from_prometheus]. *)
Definition confidence_run (mdl : Model) (x : list float) (st : State)
  : float * State :=
  match predict_proba mdl with
  | Some pp =>
      (match rbind (pp x) np_max with Ok c => c | Raise _ => default_confidence end,
       push [EvPredictProba x] st)
  | None => (default_confidence, st)
  end.

(** [predict_from_prometheus] in run order, one case per exit. *)
Definition predict_run (env : Env) (st : State)
  : result PredictionResponse * State :=
  match model st, expected_feature_names st with
  | Some mdl, n :: ns =>
      let metrics := snapshot env st in
      let st1 := after_acquisition env st in
      match build_feature_vector (n :: ns) metrics with
      | Raise e => (Raise e, st1)
      | Ok x =>
          let st2 := push [EvPredict x] st1 in
          match predict mdl x with
          | Raise e =>
              (Raise (if is_ValueError e
                      then HTTPException 500 ("Prediction failed: " ++ exn_str e)
                      else e), st2)
          | Ok raw =>
              let (conf, st3) := confidence_run mdl x st2 in
              match replica_count raw with
              | Raise e => (Raise e, st3)
              | Ok pods =>
                  match float_of_int pods with
                  | Raise e => (Raise e, counted st3)
                  | Ok value =>
                      let st4 := push [EvLogInfo (Predicted pods conf)]
                                   (publish value conf st3) in
                      (Ok {| predicted_pod_count := pods;
                             confidence := conf;
                             timestamp := utcnow_isoformat env (now st4);
                             metrics_used := metrics;
                             model_version := "1.1.0" |},
                       push [EvUtcnow] st4)
                  end
              end
          end
      end
  | _, _ =>
      (Raise (HTTPException 503 "Model not loaded or feature names unavailable"), st)
  end.

(** ** Concrete inputs *)

Module Fixture.

Definition f40 : float := Eval vm_compute in of_Z 40.
Definition f512 : float := Eval vm_compute in of_Z 512.
Definition f5 : float := Eval vm_compute in of_Z 5.

(** [-1e-06] *)
Definition minus_eps : float := S754_finite true 4722366482869645 (-72).

(** The conversions of [float(str)] the examples go through. *)
Definition parse (s : string) : option float :=
  if String.eqb s "40.0" then Some f40
  else if String.eqb s "512.0" then Some f512
  else if String.eqb s "5" then Some f5
  else if String.eqb s "0" then Some zero
  else if String.eqb s "-1e-06" then Some minus_eps
  else None.

(** An instant vector with one sample. *)
Definition sample (value : string) : http_outcome :=
  Body (JDict [ ("status", JStr "success");
                ("data", JDict [ ("resultType", JStr "vector");
                                 ("result",
                                  JList [ JDict [ ("metric", JDict []);
                                                  ("value", JList [ JInt 1700000000;
                                                                    JStr value ]) ] ]) ]) ]).

Definition empty_vector : http_outcome :=
  Body (JDict [ ("status", JStr "success");
                ("data", JDict [ ("resultType", JStr "vector");
                                 ("result", JList []) ]) ]).

Definition error_status : http_outcome :=
  Body (JDict [ ("status", JStr "error"); ("errorType", JStr "bad_data") ]).

Definition clock (t : nat) : string :=
  "2025-01-01T00:00:00." ++ DecimalString.NilZero.string_of_uint (Nat.to_uint t).

Definition env_of (store : nat -> string -> http_outcome) : Env :=
  {| TARGET_NAMESPACE := "hamzadevops";
     TARGET_DEPLOYMENT := "eventmanagement";
     prometheus := store;
     utcnow_isoformat := clock;
     float_of_str := parse |}.

(** CPU at 40.0, memory at 512.0, no data for the rest. *)
Definition store_cpu_mem (t : nat) (query : string) : http_outcome :=
  if String.prefix "avg(rate(container_cpu" query then sample "40.0"
  else if String.prefix "avg(container_memory" query then sample "512.0"
  else empty_vector.

(** As [store_cpu_mem], but the request-rate query times out. *)
Definition store_one_down (t : nat) (query : string) : http_outcome :=
  if String.prefix "sum(rate(http_requests" query then Unreachable "timed out"
  else store_cpu_mem t query.

Definition store_down (t : nat) (query : string) : http_outcome :=
  Unreachable "connection refused".

(** The store rejects every query. *)
Definition store_error (t : nat) (query : string) : http_outcome :=
  error_status.

(** Memory reads [-1e-06]. *)
Definition store_minus_eps (t : nat) (query : string) : http_outcome :=
  if String.prefix "avg(container_memory" query then sample "-1e-06"
  else sample "40.0".

(** The CPU reading changes at logical time 5. *)
Definition store_drifting (t : nat) (query : string) : http_outcome :=
  if String.prefix "avg(rate(container_cpu" query
  then (if Nat.ltb t 5 then sample "40.0" else sample "512.0")
  else sample "5".



Definition env_cpu_mem : Env := env_of store_cpu_mem.
Definition env_one_down : Env := env_of store_one_down.
Definition env_down : Env := env_of store_down.
Definition env_error : Env := env_of store_error.
Definition env_minus_eps : Env := env_of store_minus_eps.
Definition env_drifting : Env := env_of store_drifting.

(** A regressor that always answers [raw]. *)
Definition model_const (raw : num) : Model :=
  {| predict := fun _ => Ok raw; predict_proba := None;
     truth := Ok true |}.

(** A regressor that answers its first feature. *)
Definition model_first : Model :=
  {| predict := fun x => Ok (NFloat (nth 0 x zero)); predict_proba := None;
     truth := Ok true |}.

(** A predictor trained on five features. *)
Definition model_five_features : Model :=
  {| predict := fun x =>
       if Nat.eqb (List.length x) 5 then Ok (NInt 2)
       else Raise (ValueError "X has 3 features, but the model is expecting 5 features as input.");
     predict_proba := None;
     truth := Ok true |}.

(** A predictor whose [predict] fails with something else than a
    [ValueError]. *)
Definition model_broken : Model :=
  {| predict := fun _ => Raise (RuntimeError "worker pool is shut down");
     predict_proba := None;
     truth := Ok true |}.

Definition loaded (mdl : Model) (names : list string) : State :=
  {| model := Some mdl;
     expected_feature_names := names;
     prediction_counter := 0;
     prediction_gauge := zero;
     model_confidence_gauge := zero;
     trace := [] |}.

Definition not_loaded : State :=
  {| model := None;
     expected_feature_names := [];
     prediction_counter := 0;
     prediction_gauge := zero;
     model_confidence_gauge := zero;
     trace := [] |}.

Definition schema3 : list string := ["cpu_usage"; "unknown_feat"; "memory_usage"].

End Fixture.

(** The six acquired fields, by name. *)
Definition raw_metric (metrics : PrometheusMetrics) (name : string) : option float :=
  if String.eqb name "cpu_usage" then Some (cpu_usage metrics)
  else if String.eqb name "memory_usage" then Some (memory_usage metrics)
  else if String.eqb name "request_rate" then Some (request_rate metrics)
  else if String.eqb name "queue_length" then Some (queue_length metrics)
  else if String.eqb name "response_time" then Some (response_time metrics)
  else if String.eqb name "active_connections" then Some (active_connections metrics)
  else None.

(** The names the aligner can fill: the six fields and the two engineered
    features. *)
Definition known_feature (name : string) : bool :=
  match raw_metric {| cpu_usage := zero; memory_usage := zero; request_rate := zero;
                      queue_length := zero; response_time := zero;
                      active_connections := zero |} name with
  | Some _ => true
  | None => String.eqb name "cpu_memory_ratio" || String.eqb name "network_total"
  end.

(** One step of the loop of [build_feature_vector]. *)
Definition fill (base : list (string * float)) (vec : list float) (p : nat * string)
  : list float :=
  let (idx, fname) := p in
  match lookup fname base with
  | Some v => setitem vec idx v
  | None => vec
  end.

Definition num_is_finite (raw : num) : bool :=
  match raw with
  | NInt _ => true
  | NFloat x => is_finite x
  end.

(** [n] is the number [raw] rounded to the nearest integer, the even one
    when [raw] lies halfway between two. *)
Definition rounds_to (raw : num) (n : Z) : Prop :=
  match raw with
  | NInt k => n = k
  | NFloat x =>
      is_finite x = true
      /\ (Qabs (inject_Z n - to_Q x) <= 1 # 2)%Q
      /\ (Qabs (inject_Z n - to_Q x) == 1 # 2 -> Z.even n = true)%Q
  end.

Module RoundingCases.

Definition of_ratio (n d : Z) : float := div (of_Z n) (of_Z d).

Definition two_and_half : float := Eval vm_compute in of_ratio 5 2.
Definition three_and_half : float := Eval vm_compute in of_ratio 7 2.
Definition minus_half : float := Eval vm_compute in of_ratio (-1) 2.
Definition minus_seven : float := Eval vm_compute in of_Z (-7).
Definition huge : float := Eval vm_compute in of_Z (10 ^ 300).

End RoundingCases.

(** ** Vocabulary of binary rounding *)

(** A mantissa and exponent whose value is at least [2 ^ emin]. *)
Definition above_emin (prec emax m e : Z) : Prop :=
  0 < m /\ emin prec emax < Z.log2 m + 1 + e.

(** The float has the sign [sx] and is not a zero (nor a NaN). *)
Definition signed_nonzero (sx : bool) (x : spec_float) : Prop :=
  match x with
  | S754_finite s _ _ | S754_infinity s => s = sx
  | _ => False
  end.

(** ** Misc endpoints *)

(** [current_metrics]: the snapshot ([metrics.dict()]) and a timestamp. *)
Definition current_metrics (env : Env) : M (PrometheusMetrics * string) :=
  metrics <- PrometheusClient.get_workload_metrics env ;;
  ts <- utcnow env ;;
  ret (metrics, ts).

(** ** Startup: the model and its feature names *)

(** What [joblib.load] returns: the estimator and its [n_features_in_]
    attribute, [None] when it has none. *)
Record Artifact : Type := {
  estimator : Model;
  n_features_in_ : option Z
}.

(** The files the service reads at startup. *)
Record Disk : Type := {
  MODEL_PATH : string;
  MODEL_METADATA_PATH : string;
  joblib_load : string -> result Artifact;
  isfile : string -> bool;
  json_load : string -> result json   (* [open(path)] then [json.load] *)
}.

Inductive startup_msg : Type :=
| ModelLoaded (path : string)
| CouldNotReadMetadata (path : string) (ex : exn)
| UsingSyntheticNames
| ModelExpects (n : nat)
| FailedToLoadModel (ex : exn)
| ModelCouldNotBeLoaded.

Inductive startup_log : Type :=
| LogInfo (msg : startup_msg)
| LogWarning (msg : startup_msg)
| LogError (msg : startup_msg).

(** [d.get(key, default)] *)
Definition get_default (d : json) (key : string) (default : json) : result json :=
  match d with
  | JDict items => Ok (match lookup key items with Some v => v | None => default end)
  | _ => Raise (AttributeError "object has no attribute 'get'")
  end.

(** [len(v)] *)
Definition py_len (v : json) : result nat :=
  match v with
  | JList items => Ok (List.length items)
  | JDict items => Ok (List.length items)
  | JStr s => Ok (String.length s)
  | _ => Raise (TypeError "object has no len()")
  end.

(** Attempt to read feature name order from a metadata json produced
    during training: the value returned and what was logged. *)
Definition _load_feature_names_from_metadata (disk : Disk) (path : string)
  : json * list startup_log :=
  if negb (isfile disk path) then (JList [], [])
  else
    match (meta <-- json_load disk path ;;;
           selected <-- get_default meta "selected_features" (JList []) ;;;
           if Py.truthy selected then Ok selected
           else get_default meta "feature_names" (JList [])) with
    | Ok names => (names, [])
    | Raise ex => (JList [], [LogWarning (CouldNotReadMetadata path ex)])
    end.

(** [f"f_{i}" for i in range(num_features)] *)
Definition synthetic_names (num_features : Z) : list string :=
  map (fun i => "f_" ++ NilZero.string_of_uint (Nat.to_uint i))
    (seq 0 (Z.to_nat num_features)).

(** The globals after [load_model_and_features], its return value and its
    log, oldest entry first.  The feature names are kept as the Python
    object they are. *)
Record Loaded : Type := {
  load_ok : bool;
  load_model : option Model;
  load_names : json;
  load_log : list startup_log
}.

(** Load the ML model and capture expected feature names; [names0] is the
    global [expected_feature_names] before the call. *)
Definition load_model_and_features (disk : Disk) (names0 : json) : Loaded :=
  match joblib_load disk (MODEL_PATH disk) with
  | Raise ex =>
      {| load_ok := false; load_model := None; load_names := names0;
         load_log := [LogError (FailedToLoadModel ex)] |}
  | Ok art =>
      let log0 := [LogInfo (ModelLoaded (MODEL_PATH disk))] in
      (* 1) explicit feature list from the metadata file *)
      let (names1, log1) :=
        _load_feature_names_from_metadata disk (MODEL_METADATA_PATH disk) in
      (* 2) fallback to introspection *)
      let (names2, log2) :=
        if negb (Py.truthy names1) then
          match n_features_in_ art with
          | Some num_features =>
              (JList (map JStr (synthetic_names num_features)),
               [LogWarning UsingSyntheticNames])
          | None => (names1, [])
          end
        else (names1, []) in
      let log := (log0 ++ log1 ++ log2)%list in
      match (if negb (Py.truthy names2)
             then Raise (ValueError "Could not determine expected feature names for the model")
             else py_len names2) with
      | Ok n =>
          {| load_ok := true; load_model := Some (estimator art); load_names := names2;
             load_log := (log ++ [LogInfo (ModelExpects n)])%list |}
      | Raise ex =>
          {| load_ok := false; load_model := None; load_names := names2;
             load_log := (log ++ [LogError (FailedToLoadModel ex)])%list |}
      end
  end.

(** [_startup]: load, and say so when it failed. *)
Definition _startup (disk : Disk) (names0 : json) : Loaded :=
  let r := load_model_and_features disk names0 in
  if load_ok r then r
  else {| load_ok := load_ok r; load_model := load_model r; load_names := load_names r;
          load_log := (load_log r ++ [LogError ModelCouldNotBeLoaded])%list |}.

(** The feature names as a list of strings, when they are one. *)
Fixpoint strings_of (items : list json) : option (list string) :=
  match items with
  | [] => Some []
  | JStr s :: rest =>
      match strings_of rest with
      | Some l => Some (s :: l)
      | None => None
      end
  | _ :: _ => None
  end.

Definition names_of_json (names : json) : option (list string) :=
  match names with
  | JList items => strings_of items
  | _ => None
  end.

(** The process state a freshly started process serves from, when the
    loaded feature names are a list of strings. *)
Definition serving_state (r : Loaded) : option State :=
  match names_of_json (load_names r) with
  | Some names =>
      Some {| model := load_model r;
              expected_feature_names := names;
              prediction_counter := 0;
              prediction_gauge := zero;
              model_confidence_gauge := zero;
              trace := [] |}
  | None => None
  end.

(** What the aligner writes for a name, given the dict [base]. *)
Definition feature_value (base : list (string * float)) (name : string) : float :=
  match lookup name base with
  | Some v => v
  | None => zero
  end.

Definition is_error_log (ev : event) : bool :=
  match ev with EvLogError _ => true | _ => false end.

Definition is_utcnow (ev : event) : bool :=
  match ev with EvUtcnow => true | _ => false end.

(** The queries a trace holds, oldest first. *)
Definition queries_sent (evs : list event) : list string :=
  flat_map (fun ev => match ev with EvQuery q => [q] | _ => [] end) (rev evs).

(** Startup fixtures. *)
Module StartupFixture.

Definition metadata : json :=
  JDict [ ("model_type", JStr "RandomForestRegressor");
          ("selected_features", JList [JStr "cpu_usage"; JStr "memory_usage"]);
          ("feature_names", JList [JStr "cpu_usage"; JStr "memory_usage";
                                   JStr "request_rate"]) ].

Definition metadata_no_selection : json :=
  JDict [ ("selected_features", JList []);
          ("feature_names", JList [JStr "cpu_usage"; JStr "request_rate"]) ].

Definition disk_of (art : result Artifact) (meta : option (result json)) : Disk :=
  {| MODEL_PATH := "/app/model/pod_predictor.pkl";
     MODEL_METADATA_PATH := "/app/model/metadata.json";
     joblib_load := fun _ => art;
     isfile := fun _ => match meta with Some _ => true | None => false end;
     json_load := fun _ => match meta with
                           | Some r => r
                           | None => Raise (RuntimeError "No such file or directory")
                           end |}.

Definition artifact (n : option Z) : Artifact :=
  {| estimator := Fixture.model_first; n_features_in_ := n |}.

Definition disk_full : Disk := disk_of (Ok (artifact (Some 3))) (Some (Ok metadata)).
Definition disk_no_metadata : Disk := disk_of (Ok (artifact (Some 3))) None.
Definition disk_bare : Disk := disk_of (Ok (artifact None)) None.

End StartupFixture.

(** The confidence a prediction on the vector [x] reports: the largest
    probability when the model has [predict_proba] and it answers, 0.95
    otherwise. *)
Definition best_effort_confidence (mdl : Model) (x : list float) : float :=
  match predict_proba mdl with
  | Some pp =>
      match pp x with
      | Ok (c :: rest) => fold_left fmax rest c
      | _ => default_confidence
      end
  | None => default_confidence
  end.

Module ConfidenceFixture.

Definition quarter : float := Eval vm_compute in RoundingCases.of_ratio 1 4.
Definition three_quarters : float := Eval vm_compute in RoundingCases.of_ratio 3 4.

(** A classifier whose [predict_proba] works. *)
Definition model_proba : Model :=
  {| predict := fun _ => Ok (NInt 3);
     predict_proba := Some (fun _ => Ok [quarter; three_quarters; zero]);
     truth := Ok true |}.

(** A classifier whose [predict_proba] fails. *)
Definition model_proba_broken : Model :=
  {| predict := fun _ => Ok (NInt 3);
     predict_proba := Some (fun _ => Raise (RuntimeError "not fitted"));
     truth := Ok true |}.

End ConfidenceFixture.

(** A stage of acquire, align, infer raised [e] in the tick begun in
    [st].  Acquisition never raises; this is the aligner, the predictor
    (whose [ValueError] the endpoint hands on as a 500), or the conversion
    of the predictor's output to a replica count. *)
Inductive stage_raises (env : Env) (st : State) : exn -> Prop :=
| raises_align : forall e,
    build_feature_vector (expected_feature_names st) (snapshot env st) = Raise e ->
    stage_raises env st e
| raises_predict : forall mdl x e,
    model st = Some mdl ->
    build_feature_vector (expected_feature_names st) (snapshot env st) = Ok x ->
    predict mdl x = Raise e ->
    stage_raises env st
      (if is_ValueError e
       then HTTPException 500 ("Prediction failed: " ++ exn_str e)
       else e)
| raises_convert : forall mdl x raw e,
    model st = Some mdl ->
    build_feature_vector (expected_feature_names st) (snapshot env st) = Ok x ->
    predict mdl x = Ok raw ->
    replica_count raw = Raise e ->
    stage_raises env st e.

(** The gauge takes every count [mdl] can lead to: none is an int beyond
    the range of a float. *)
Definition gauge_accepts (mdl : Model) : Prop :=
  forall x raw pods,
    predict mdl x = Ok raw ->
    replica_count raw = Ok pods ->
    exists value, float_of_int pods = Ok value.



(** ** Runs of the client *)

Lemma push_nil (st : State) : push [] st = st.
Proof. destruct st; reflexivity. Qed.

Lemma push_push (evs1 evs2 : list event) (st : State) :
  push evs2 (push evs1 st) = push (evs2 ++ evs1) st.
Proof. unfold push; simpl. now rewrite app_assoc. Qed.

Lemma query_metric_run (env : Env) (query : string) (st : State) :
  PrometheusClient.query_metric env query st
  = (Ok (metric_of env (prometheus env (now st) query)), after_query env query st).
Proof.
  unfold PrometheusClient.query_metric, after_query, query_events, metric_of.
  unfold bind, try_except, emit, lift, logger_error, ret, Exception; simpl.
  destruct (PrometheusClient.read_response _ _) as [[x|]|e]; reflexivity.
Qed.

Lemma gather_queries (env : Env) (qs : list string) (st : State) :
  gather (map (PrometheusClient.query_metric env) qs) st
  = (Ok (readings env qs st), after_queries env qs st).
Proof.
  revert st; induction qs as [|q rest IH]; intros st; simpl.
  - reflexivity.
  - unfold bind at 1. rewrite query_metric_run.
    unfold bind at 1. rewrite IH. reflexivity.
Qed.

Lemma readings_length (env : Env) (qs : list string) (st : State) :
  List.length (readings env qs st) = List.length qs.
Proof. revert st; induction qs; intros; simpl; auto. Qed.

Lemma get_workload_metrics_run (env : Env) (st : State) :
  PrometheusClient.get_workload_metrics env st
  = (Ok (snapshot env st), after_acquisition env st).
Proof.
  unfold PrometheusClient.get_workload_metrics, snapshot, after_acquisition.
  unfold bind at 1.
  replace (map (fun kq => PrometheusClient.query_metric env (snd kq))
             (PrometheusClient.queries env))
    with (map (PrometheusClient.query_metric env) (query_strings env))
    by (unfold query_strings; now rewrite map_map).
  rewrite gather_queries.
  pose proof (readings_length env (query_strings env) st) as L.
  destruct (readings env (query_strings env) st) as [|a [|b [|c [|d [|e [|f [|g r]]]]]]];
    simpl in L; try discriminate.
  reflexivity.
Qed.

(** Acquisition writes the trace and nothing else. *)
Lemma after_queries_push (env : Env) (qs : list string) (st : State) :
  exists evs, after_queries env qs st = push evs st
              /\ List.length (filter is_query evs) = List.length qs
              /\ filter is_predict evs = []
              /\ filter is_sleep30 evs = []
              /\ filter is_background_error evs = [].
Proof.
  revert st; induction qs as [|q rest IH]; intros st; simpl.
  - exists []. now rewrite push_nil.
  - destruct (IH (after_query env q st)) as (evs & E & Q & P & S & B).
    exists (evs ++ query_events env q st)%list. unfold after_query in *.
    rewrite E, push_push. split; [reflexivity|].
    rewrite !filter_app, P, S, B, length_app, Q. unfold query_events.
    destruct (PrometheusClient.read_response _ _); simpl; repeat split; lia.
Qed.

Lemma confidence_step (mdl : Model) (x : list float) (st : State) :
  match predict_proba mdl with
  | Some pp =>
      try_except (p <- model_predict_proba pp x ;; lift (np_max p)) Exception
        (fun _ => ret default_confidence)
  | None => ret default_confidence
  end st
  = (Ok (fst (confidence_run mdl x st)), snd (confidence_run mdl x st)).
Proof.
  unfold confidence_run. destruct (predict_proba mdl) as [pp|]; [|reflexivity].
  unfold try_except, bind, model_predict_proba, emit, lift, ret, Exception, rbind; simpl.
  destruct (pp x) as [p|e]; [destruct (np_max p)|]; reflexivity.
Qed.

Lemma predict_from_prometheus_run (env : Env) (st : State) :
  predict_from_prometheus env st = predict_run env st.
Proof.
  unfold predict_from_prometheus, predict_run.
  unfold bind at 1, gets at 1. unfold bind at 1, gets at 1.
  destruct (model st) as [mdl|] eqn:Hm; [|reflexivity].
  destruct (expected_feature_names st) as [|n ns] eqn:Hn; [reflexivity|].
  unfold bind at 1. rewrite get_workload_metrics_run.
  unfold bind at 1, gets at 1.
  assert (Hn' : expected_feature_names (after_acquisition env st) = n :: ns).
  { unfold after_acquisition.
    destruct (after_queries_push env (query_strings env) st) as (evs & -> & _).
    exact Hn. }
  rewrite Hn'. unfold bind at 1, lift at 1.
  destruct (build_feature_vector (n :: ns) (snapshot env st)) as [x|e]; [|reflexivity].
  unfold bind at 1, try_except at 1, model_predict, bind at 1, emit at 1, lift at 1.
  fold (push [EvPredict x] (after_acquisition env st)).
  destruct (predict mdl x) as [raw|e].
  - unfold bind at 1. rewrite confidence_step.
    destruct (confidence_run mdl x _) as [conf st3]; simpl fst; simpl snd.
    unfold bind at 1, lift at 1.
    destruct (replica_count raw) as [pods|e]; [|reflexivity].
    unfold bind at 1, prediction_counter_inc at 1.
    unfold bind at 1, prediction_gauge_set at 1, bind at 1, lift at 1.
    destruct (float_of_int pods) as [value|e]; reflexivity.
  - destruct e; reflexivity.
Qed.

(** ** Reading one response *)

Lemma metric_of_fails (env : Env) (o : http_outcome) :
  query_fails env o -> metric_of env o = zero.
Proof.
  intros H. unfold metric_of. destruct H as [why|code| |data e E]; try reflexivity.
  now rewrite E.
Qed.

Lemma metric_of_answers (env : Env) (o : http_outcome) (x : float) :
  answers env o x -> metric_of env o = x.
Proof.
  intros H. destruct H as [top dat first rest ts v more x Hs Hd Hr Hv Hx].
  unfold metric_of, PrometheusClient.read_response, Py.get, Py.getitem, rbind.
  rewrite Hs. cbn [Py.eq_str]. rewrite String.eqb_refl, Hd, Hr.
  cbn [Py.truthy Py.getindex nth_error]. rewrite Hv. cbn [Py.getindex nth_error].
  now rewrite Hx.
Qed.

Lemma read_response_no_data (env : Env) (o : http_outcome) :
  no_data o -> PrometheusClient.read_response (float_of_str env) o = Ok None.
Proof.
  intros H. destruct H as [top Hs|top dat Hs Hd Hr];
    unfold PrometheusClient.read_response, Py.get, Py.getitem, rbind.
  - destruct (lookup "status" top) as [s|] eqn:E.
    + now rewrite (Hs s eq_refl).
    + reflexivity.
  - rewrite Hs. cbn [Py.eq_str]. now rewrite String.eqb_refl, Hd, Hr.
Qed.

Lemma metric_of_no_data (env : Env) (o : http_outcome) :
  no_data o -> metric_of env o = zero.
Proof.
  intros H. unfold metric_of. now rewrite (read_response_no_data env o H).
Qed.

Lemma reads_metric_of (env : Env) (o : http_outcome) :
  reads env o (metric_of env o).
Proof.
  split.
  - apply metric_of_fails.
  - intros v Hv. now apply metric_of_answers.
Qed.

(** ** No data reads as zero *)

(** C10: a response that arrives without error but carries a status other
    than "success", or an empty result list, makes [query_metric] return
    0.0, the very value it returns for a failed or timed-out query and for
    a sample that genuinely reads zero; the value does not tell them
    apart. *)
Theorem query_metric_no_data_is_zero (env : Env) (query : string) (st : State)
    (H : no_data (prometheus env (now st) query)) :
  fst (PrometheusClient.query_metric env query st) = Ok zero
  /\ (forall query' st',
        query_fails env (prometheus env (now st') query') ->
        fst (PrometheusClient.query_metric env query' st')
        = fst (PrometheusClient.query_metric env query st))
  /\ (forall query' st',
        answers env (prometheus env (now st') query') zero ->
        fst (PrometheusClient.query_metric env query' st')
        = fst (PrometheusClient.query_metric env query st)).
Proof.
  rewrite query_metric_run. cbn [fst]. rewrite (metric_of_no_data env _ H).
  split; [reflexivity|]. split; intros q' st' H'; rewrite query_metric_run; cbn [fst].
  - now rewrite (metric_of_fails env _ H').
  - now rewrite (metric_of_answers env _ _ H').
Qed.

Lemma query_metric_no_data_is_zero_witness :
  (no_data (prometheus Fixture.env_cpu_mem (now Fixture.not_loaded) "up")
   /\ fst (PrometheusClient.query_metric Fixture.env_cpu_mem "up" Fixture.not_loaded)
      = Ok zero)
  /\ (no_data (prometheus Fixture.env_error (now Fixture.not_loaded) "up")
      /\ fst (PrometheusClient.query_metric Fixture.env_error "up" Fixture.not_loaded)
         = fst (PrometheusClient.query_metric Fixture.env_down "up" Fixture.not_loaded)).
Proof.
  assert (H : no_data (prometheus Fixture.env_cpu_mem (now Fixture.not_loaded) "up")).
  { eapply no_data_empty; reflexivity. }
  assert (H' : no_data (prometheus Fixture.env_error (now Fixture.not_loaded) "up")).
  { apply no_data_status. intros s E. injection E as <-. reflexivity. }
  split; split; try assumption.
  - exact (proj1 (query_metric_no_data_is_zero Fixture.env_cpu_mem "up"
                    Fixture.not_loaded H)).
  - rewrite (proj1 (query_metric_no_data_is_zero Fixture.env_error "up"
                      Fixture.not_loaded H')).
    vm_compute. reflexivity.
Defined.






(** ** Acquisition isolates failures *)



(** One query times out, the five others are read as they came. *)
Example get_workload_metrics_one_down :
  fst (PrometheusClient.get_workload_metrics Fixture.env_one_down Fixture.not_loaded)
  = Ok {| cpu_usage := Fixture.f40; memory_usage := Fixture.f512;
          request_rate := zero; queue_length := zero;
          response_time := zero; active_connections := zero |}.
Proof. reflexivity. Qed.


(** ** The health endpoint *)

(** [health_check] in run order: it never takes its [except] branch, and
    raises only where the truth value of the model does. *)
Lemma health_check_run (env : Env) (st : State) :
  health_check env st
  = match model st with
    | None =>
        (Ok {| status := "unhealthy";
               model_loaded := false;
               prometheus_connected := true;
               expected_features := List.length (expected_feature_names st);
               health_timestamp := utcnow_isoformat env (now (after_query env "up" st)) |},
         push [EvUtcnow] (after_query env "up" st))
    | Some m =>
        match truth m with
        | Ok b =>
            (Ok {| status := if b then "healthy" else "unhealthy";
                   model_loaded := true;
                   prometheus_connected := true;
                   expected_features := List.length (expected_feature_names st);
                   health_timestamp :=
                     utcnow_isoformat env (now (after_query env "up" st)) |},
             push [EvUtcnow] (after_query env "up" st))
        | Raise e => (Raise e, after_query env "up" st)
        end
    end.
Proof.
  unfold health_check. unfold bind at 1, try_except at 1, bind at 1.
  rewrite query_metric_run. cbn [ret].
  unfold bind at 1, gets at 1. unfold bind at 1.
  assert (Em : model (after_query env "up" st) = model st) by reflexivity.
  assert (En : expected_feature_names (after_query env "up" st)
               = expected_feature_names st) by reflexivity.
  rewrite Em. destruct (model st) as [m|].
  - unfold bind at 1, lift at 1. destruct (truth m) as [b|e]; [|reflexivity].
    cbn [ret]. unfold bind at 1, gets at 1. rewrite En.
    unfold bind at 1, utcnow at 1, bind at 1, emit at 1, ret at 1, ret at 1.
    destruct b; reflexivity.
  - cbn [ret]. unfold bind at 1, gets at 1. rewrite En.
    unfold bind at 1, utcnow at 1, bind at 1, emit at 1, ret at 1, ret at 1.
    reflexivity.
Qed.

(** C6, at the failing input: the store is unreachable, the probe query
    fails, and the health answer still says connected and healthy. *)
Theorem health_check_store_down :
  query_fails Fixture.env_down (prometheus Fixture.env_down 0 "up")
  /\ fst (health_check Fixture.env_down
            (Fixture.loaded Fixture.model_first Fixture.schema3))
     = Ok {| status := "healthy";
             model_loaded := true;
             prometheus_connected := true;
             expected_features := 3;
             health_timestamp := Fixture.clock 2 |}.
Proof. split; [apply fails_unreachable | reflexivity]. Qed.

(** ** Runs of the prediction endpoint *)

Lemma count_events_push (p : event -> bool) (evs : list event) (st : State) :
  count_events p (push evs st)
  = (List.length (filter p evs) + count_events p st)%nat.
Proof. unfold count_events, push; simpl. now rewrite filter_app, length_app. Qed.

Lemma after_acquisition_push (env : Env) (st : State) :
  exists evs, after_acquisition env st = push evs st
              /\ List.length (filter is_query evs) = 6%nat
              /\ filter is_predict evs = []
              /\ filter is_sleep30 evs = []
              /\ filter is_background_error evs = [].
Proof.
  unfold after_acquisition.
  destruct (after_queries_push env (query_strings env) st) as (evs & E & Q & R).
  exists evs. split; [exact E|]. split; [exact Q|exact R].
Qed.

Lemma confidence_run_push (mdl : Model) (x : list float) (st : State) :
  exists evs, snd (confidence_run mdl x st) = push evs st
              /\ filter is_query evs = []
              /\ filter is_predict evs = []
              /\ filter is_sleep30 evs = []
              /\ filter is_background_error evs = [].
Proof.
  unfold confidence_run. destruct (predict_proba mdl).
  - exists [EvPredictProba x]. repeat split.
  - exists []. rewrite push_nil. repeat split.
Qed.

(** [float] of an int is its nearest binary64 number, when it has one. *)
Lemma float_of_int_ok (n : Z) (value : float) :
  float_of_int n = Ok value -> value = of_Z n.
Proof.
  unfold float_of_int. destruct (of_Z n); intros H; try discriminate;
    now injection H as <-.
Qed.

(** What a successful prediction went through. *)
Lemma predict_ok_inv (env : Env) (st : State) (p : PredictionResponse) (st' : State) :
  predict_from_prometheus env st = (Ok p, st') ->
  exists mdl x raw st3,
    model st = Some mdl
    /\ expected_feature_names st <> []
    /\ build_feature_vector (expected_feature_names st) (snapshot env st) = Ok x
    /\ predict mdl x = Ok raw
    /\ replica_count raw = Ok (predicted_pod_count p)
    /\ metrics_used p = snapshot env st
    /\ confidence p = fst (confidence_run mdl x (push [EvPredict x] (after_acquisition env st)))
    /\ st3 = snd (confidence_run mdl x (push [EvPredict x] (after_acquisition env st)))
    /\ st' = push [EvUtcnow; EvLogInfo (Predicted (predicted_pod_count p) (confidence p))]
               (publish (of_Z (predicted_pod_count p)) (confidence p) st3)
    /\ timestamp p = utcnow_isoformat env (S (now st3)).
Proof.
  rewrite predict_from_prometheus_run. unfold predict_run.
  destruct (model st) as [mdl|]; [|discriminate].
  destruct (expected_feature_names st) as [|n ns]; [discriminate|].
  destruct (build_feature_vector (n :: ns) (snapshot env st)) as [x|e] eqn:Hx;
    [|discriminate].
  destruct (predict mdl x) as [raw|e] eqn:Hraw; [|discriminate].
  destruct (confidence_run mdl x _) as [conf st3] eqn:Hc.
  destruct (replica_count raw) as [pods|e] eqn:Hpods; [|discriminate].
  destruct (float_of_int pods) as [value|e] eqn:Hvalue; [|discriminate].
  apply float_of_int_ok in Hvalue. subst value.
  intros H. injection H as <- <-.
  exists mdl, x, raw, st3.
  cbn [predicted_pod_count confidence timestamp metrics_used fst snd].
  repeat split; try reflexivity; try assumption;
    try (now rewrite Hc); try discriminate; try (now rewrite push_push).
Qed.

(** A prediction that returned has stored the float of its count. *)
Lemma predict_ok_gauge (env : Env) (st : State) (p : PredictionResponse) (st' : State) :
  predict_from_prometheus env st = (Ok p, st') ->
  float_of_int (predicted_pod_count p) = Ok (of_Z (predicted_pod_count p)).
Proof.
  rewrite predict_from_prometheus_run. unfold predict_run.
  destruct (model st) as [mdl|]; [|discriminate].
  destruct (expected_feature_names st) as [|n ns]; [discriminate|].
  destruct (build_feature_vector (n :: ns) (snapshot env st)) as [x|e];
    [|discriminate].
  destruct (predict mdl x) as [raw|e]; [|discriminate].
  destruct (confidence_run mdl x _) as [conf st3].
  destruct (replica_count raw) as [pods|e]; [|discriminate].
  destruct (float_of_int pods) as [value|e] eqn:Hvalue; [|discriminate].
  intros H. injection H as <- _. cbn [predicted_pod_count].
  now rewrite (float_of_int_ok _ _ Hvalue) in Hvalue.
Qed.

(** A prediction that raises has set no gauge; it has counted a served
    prediction only when the gauge refused the count. *)
Lemma predict_raise_inv (env : Env) (st : State) (e : exn) (st' : State) :
  predict_from_prometheus env st = (Raise e, st') ->
  exists evs, filter is_sleep30 evs = []
              /\ filter is_background_error evs = []
              /\ (st' = push evs st
                  \/ (st' = counted (push evs st)
                      /\ exists mdl x raw pods,
                           model st = Some mdl
                           /\ predict mdl x = Ok raw
                           /\ replica_count raw = Ok pods
                           /\ float_of_int pods = Raise e)).
Proof.
  rewrite predict_from_prometheus_run. unfold predict_run.
  destruct (after_acquisition_push env st) as (evs & Ea & _ & _ & Sa & Ba).
  assert (Hst : forall e0 st0, (Raise e0, st) = (@Raise PredictionResponse e, st0) ->
                  exists evs0, filter is_sleep30 evs0 = []
                               /\ filter is_background_error evs0 = []
                               /\ (st0 = push evs0 st
                                   \/ (st0 = counted (push evs0 st)
                                       /\ exists mdl x raw pods,
                                            model st = Some mdl
                                            /\ predict mdl x = Ok raw
                                            /\ replica_count raw = Ok pods
                                            /\ float_of_int pods = Raise e))).
  { intros e0 st0 H. injection H as _ <-. exists []. rewrite push_nil. auto. }
  destruct (model st) as [mdl|]; [|apply Hst].
  destruct (expected_feature_names st) as [|n ns]; [apply Hst|].
  destruct (build_feature_vector (n :: ns) (snapshot env st)) as [x|e0].
  - destruct (predict mdl x) as [raw|e0] eqn:Hraw.
    + destruct (confidence_run_push mdl x (push [EvPredict x] (after_acquisition env st)))
        as (evc & Ec & _ & _ & Sc & Bc).
      destruct (confidence_run mdl x _) as [conf st3]. cbn [snd] in Ec.
      destruct (replica_count raw) as [pods|e0] eqn:Hpods.
      * destruct (float_of_int pods) as [value|e0] eqn:Hvalue; [discriminate|].
        intros H. injection H as <- <-. rewrite Ec, Ea, !push_push.
        eexists. split; [|split; [|right; split; [reflexivity|]]].
        -- rewrite !filter_app, Sc, Sa. reflexivity.
        -- rewrite !filter_app, Bc, Ba. reflexivity.
        -- exists mdl, x, raw, pods. auto.
      * intros H. injection H as _ <-. rewrite Ec, Ea, !push_push.
        eexists. split; [|split; [|left; reflexivity]].
        -- rewrite !filter_app, Sc, Sa. reflexivity.
        -- rewrite !filter_app, Bc, Ba. reflexivity.
    + intros H. injection H as _ <-. rewrite Ea, push_push.
      eexists. split; [|split; [|left; reflexivity]].
      -- rewrite !filter_app, Sa. reflexivity.
      -- rewrite !filter_app, Ba. reflexivity.
  - intros H. injection H as _ <-. exists evs. auto.
Qed.

Lemma push_same_registry (evs : list event) (st : State) :
  same_registry st (push evs st) /\ same_globals st (push evs st).
Proof. repeat split. Qed.

Lemma replica_count_floor (raw : num) (pods : Z) :
  replica_count raw = Ok pods -> 1 <= pods.
Proof.
  unfold replica_count, rbind.
  destruct raw as [n|x]; [|destruct (Py.round x) as [n|e]; [|discriminate]];
    intros H; injection H as <-; lia.
Qed.

(** Whatever its outcome, a prediction only adds to the trace, and neither
    sleeps nor logs on behalf of the background loop. *)
Lemma predict_trace (env : Env) (st : State) (r : result PredictionResponse)
    (st' : State) :
  predict_from_prometheus env st = (r, st') ->
  exists evs, trace st' = (evs ++ trace st)%list
              /\ filter is_sleep30 evs = []
              /\ filter is_background_error evs = []
              /\ same_globals st st'.
Proof.
  intros H. destruct r as [p|e].
  - destruct (predict_ok_inv env st p st' H)
      as (mdl & x & raw & st3 & _ & _ & _ & _ & _ & _ & _ & E3 & E' & _).
    destruct (after_acquisition_push env st) as (eva & Ea & _ & _ & Sa & Ba).
    destruct (confidence_run_push mdl x (push [EvPredict x] (after_acquisition env st)))
      as (evc & Ec & _ & _ & Sc & Bc).
    rewrite <- E3, Ea, push_push in Ec. subst st'. rewrite Ec.
    eexists. split; [cbn [push publish trace]; rewrite !app_assoc; reflexivity|].
    rewrite !filter_app, Sc, Sa, Bc, Ba. repeat split.
  - destruct (predict_raise_inv env st e st' H) as (evs & S & B & [-> | [-> _]]);
      exists evs; repeat split; assumption.
Qed.

(** ** Feature mismatch *)

(** C8: when the predictor rejects the aligned vector with a [ValueError]
    (scikit-learn's feature-count mismatch), [predict_from_prometheus]
    raises to its caller an [HTTPException] with status 500, distinct from
    the 503 of a missing model, whose detail carries the predictor's
    message; the predictor was called once, with the vector as aligned; no
    prediction is returned and nothing is published. *)
Theorem feature_mismatch_is_reported (env : Env) (st : State) (mdl : Model)
    (x : list float) (msg : string)
    (Hm : model st = Some mdl)
    (Hn : expected_feature_names st <> [])
    (Hx : build_feature_vector (expected_feature_names st) (snapshot env st) = Ok x)
    (Hp : predict mdl x = Raise (ValueError msg)) :
  let st' := push [EvPredict x] (after_acquisition env st) in
  predict_from_prometheus env st
  = (Raise (HTTPException 500 ("Prediction failed: " ++ msg)), st')
  /\ HTTPException 500 ("Prediction failed: " ++ msg)
     <> HTTPException 503 "Model not loaded or feature names unavailable"
  /\ count_events is_predict st' = S (count_events is_predict st)
  /\ same_registry st st'.
Proof.
  intros st'. split; [|split; [discriminate|split]].
  - rewrite predict_from_prometheus_run. unfold predict_run. rewrite Hm.
    destruct (expected_feature_names st) as [|n ns]; [contradiction|].
    rewrite Hx, Hp. reflexivity.
  - subst st'. destruct (after_acquisition_push env st) as (evs & -> & _ & P & _).
    rewrite push_push, count_events_push, filter_app, P. reflexivity.
  - subst st'. destruct (after_acquisition_push env st) as (evs & -> & _).
    rewrite push_push. apply push_same_registry.
Qed.

Lemma feature_mismatch_is_reported_witness :
  fst (predict_from_prometheus Fixture.env_cpu_mem
         (Fixture.loaded Fixture.model_five_features Fixture.schema3))
  = Raise (HTTPException 500
             "Prediction failed: X has 3 features, but the model is expecting 5 features as input.").
Proof.
  pose proof (feature_mismatch_is_reported Fixture.env_cpu_mem
                (Fixture.loaded Fixture.model_five_features Fixture.schema3)
                Fixture.model_five_features
                [Fixture.f40; zero; Fixture.f512]
                "X has 3 features, but the model is expecting 5 features as input."
                eq_refl ltac:(discriminate) eq_refl eq_refl) as H.
  cbv zeta in H. destruct H as [H _]. rewrite H. reflexivity.
Defined.

(** ** The background loop goes on *)

Lemma runner_iteration_run (env : Env) (st : State) :
  exists st', runner_iteration env st = (Ok tt, st')
    /\ count_events is_sleep30 st' = S (count_events is_sleep30 st)
    /\ same_globals st st'
    /\ (model st = None -> st' = push [EvSleep 30] st)
    /\ (forall p st1,
          model st <> None ->
          predict_from_prometheus env st = (Ok p, st1) ->
          st' = push [EvSleep 30] st1)
    /\ (forall e st1,
          model st <> None ->
          predict_from_prometheus env st = (Raise e, st1) ->
          st' = push [EvSleep 30; EvLogError (BackgroundPredictionError e)] st1
          /\ count_events is_background_error st'
             = S (count_events is_background_error st)
          /\ prediction_gauge st' = prediction_gauge st
          /\ model_confidence_gauge st' = model_confidence_gauge st).
Proof.
  unfold runner_iteration. unfold bind at 1, try_except at 1, bind at 1, gets at 1.
  destruct (model st) as [mdl|] eqn:Hm.
  - unfold bind at 1.
    destruct (predict_from_prometheus env st) as [[p|e] st1] eqn:Hp;
      destruct (predict_trace env st _ st1 Hp) as (evs & Et & S & B & G).
    + exists (push [EvSleep 30] st1). split; [reflexivity|].
      split; [|split; [exact G|split; [discriminate|split; [|discriminate]]]].
      * rewrite count_events_push. unfold count_events. rewrite Et, filter_app, S.
        reflexivity.
      * intros p0 st0 _ H0. injection H0 as _ <-. reflexivity.
    + exists (push [EvSleep 30; EvLogError (BackgroundPredictionError e)] st1).
      split; [reflexivity|].
      split; [|split; [exact G|split; [discriminate|split; [discriminate|]]]].
      * rewrite count_events_push. unfold count_events. rewrite Et, filter_app, S.
        reflexivity.
      * intros e0 st0 _ H0. injection H0 as <- <-.
        split; [reflexivity|]. split.
        -- rewrite count_events_push. unfold count_events.
           rewrite Et, filter_app, B. reflexivity.
        -- destruct (predict_raise_inv env st e st1 Hp)
             as (evs' & _ & _ & [-> | [-> _]]); split; reflexivity.
  - exists (push [EvSleep 30] st). split; [reflexivity|].
    split; [now rewrite count_events_push|]. split; [repeat split|].
    split; [reflexivity|]. split; intros ? st1 H; contradiction.
Qed.

(** One more turn of the loop is one turn run where the others ended. *)
Lemma _runner_snoc (env : Env) (fuel : nat) (st : State) :
  fst (_runner fuel env st) = Ok tt
  /\ _runner (S fuel) env st = runner_iteration env (snd (_runner fuel env st)).
Proof.
  revert st. induction fuel as [|n IH]; intros st.
  - split; [reflexivity|]. cbn [_runner]. unfold bind at 1.
    change (snd (ret tt st)) with st.
    destruct (runner_iteration_run env st) as (st1 & -> & _). reflexivity.
  - destruct (runner_iteration_run env st) as (st1 & E1 & _).
    destruct (IH st1) as [F N].
    assert (E : _runner (S n) env st = _runner n env st1).
    { cbn [_runner]. unfold bind at 1. now rewrite E1. }
    split; [now rewrite E|].
    change (_runner (S (S n)) env st)
      with ((runner_iteration env ;; _runner (S n) env) st).
    unfold bind at 1. rewrite E1, E. exact N.
Qed.

(** A stage that raises makes the prediction raise before it publishes. *)
Lemma stage_raises_run (env : Env) (st : State) (e : exn) :
  model st <> None ->
  expected_feature_names st <> [] ->
  stage_raises env st e ->
  exists st1, predict_from_prometheus env st = (Raise e, st1)
              /\ same_registry st st1.
Proof.
  intros Hm Hn H. rewrite predict_from_prometheus_run. unfold predict_run.
  destruct (after_acquisition_push env st) as (eva & Ea & _).
  destruct (model st) as [mdl|] eqn:Em; [|contradiction].
  destruct (expected_feature_names st) as [|n ns] eqn:En; [contradiction|].
  destruct H as [e Hx | mdl' x e Hm' Hx Hp | mdl' x raw e Hm' Hx Hp Hr];
    rewrite En in Hx.
  - rewrite Hx. eexists. split; [reflexivity|]. rewrite Ea. apply push_same_registry.
  - rewrite Em in Hm'. injection Hm' as <-. rewrite Hx, Hp. eexists. split; [reflexivity|].
    rewrite Ea, push_push. apply push_same_registry.
  - rewrite Em in Hm'. injection Hm' as <-. rewrite Hx, Hp.
    destruct (confidence_run_push mdl x (push [EvPredict x] (after_acquisition env st)))
      as (evc & Ec & _).
    destruct (confidence_run mdl x _) as [conf st3]. cbn [snd] in Ec.
    rewrite Hr. eexists. split; [reflexivity|].
    rewrite Ec, Ea, !push_push. apply push_same_registry.
Qed.

(** C7: the background loop never stops.  After any number [k] of ticks
    it has let no exception out, has slept 30 once per tick and has kept
    the model; and tick [k + 1], run in the state [sk] the first [k] left,
    is the guarded prediction followed by the sleep: with a model loaded it
    runs the prediction endpoint, and when that raises, whatever the
    exception, the loop logs it, leaves both gauges as published and
    sleeps 30 before the next tick; when the exception comes from a stage
    of acquire, align, infer, the counter is left alone as well. *)
Theorem background_loop_never_stops (env : Env) (k : nat) (st : State) :
  let sk := snd (_runner k env st) in
  let sk' := snd (_runner (S k) env st) in
  fst (_runner k env st) = Ok tt
  /\ fst (_runner (S k) env st) = Ok tt
  /\ count_events is_sleep30 sk = (k + count_events is_sleep30 st)%nat
  /\ same_globals st sk
  /\ (model sk = None -> sk' = push [EvSleep 30] sk)
  /\ (forall p s1,
        model sk <> None ->
        predict_from_prometheus env sk = (Ok p, s1) ->
        sk' = push [EvSleep 30] s1)
  /\ (forall e s1,
        model sk <> None ->
        predict_from_prometheus env sk = (Raise e, s1) ->
        sk' = push [EvSleep 30; EvLogError (BackgroundPredictionError e)] s1
        /\ count_events is_background_error sk'
           = S (count_events is_background_error sk)
        /\ prediction_gauge sk' = prediction_gauge sk
        /\ model_confidence_gauge sk' = model_confidence_gauge sk)
  /\ (forall e,
        model sk <> None ->
        expected_feature_names sk <> [] ->
        stage_raises env sk e ->
        exists s1,
          predict_from_prometheus env sk = (Raise e, s1)
          /\ sk' = push [EvSleep 30; EvLogError (BackgroundPredictionError e)] s1
          /\ count_events is_background_error sk'
             = S (count_events is_background_error sk)
          /\ same_registry sk sk').
Proof.
  intros sk sk'.
  destruct (_runner_snoc env k st) as [F N].
  destruct (runner_iteration_run env sk) as (s' & E & _ & _ & Hn & Hok & Hr).
  assert (Es : sk' = s') by (unfold sk'; fold sk in N; now rewrite N, E).
  split; [exact F|].
  split; [exact (proj1 (_runner_snoc env (S k) st))|].
  assert (I : count_events is_sleep30 sk = (k + count_events is_sleep30 st)%nat
              /\ same_globals st sk).
  { unfold sk. clear. revert st. induction k as [|n IH]; intros st.
    - split; [reflexivity|split; reflexivity].
    - destruct (runner_iteration_run env st) as (st1 & E1 & S1 & [Gm Gn] & _).
      assert (E : _runner (S n) env st = _runner n env st1).
      { cbn [_runner]. unfold bind at 1. now rewrite E1. }
      rewrite E. destruct (IH st1) as (S2 & [Hm2 Hn2]).
      split; [lia|]. split; congruence. }
  destruct I as [Is Ig].
  split; [exact Is|]. split; [exact Ig|]. rewrite Es.
  split; [exact Hn|]. split; [exact Hok|]. split; [exact Hr|].
  intros e Hm Hnames Hs.
  destruct (stage_raises_run env sk e Hm Hnames Hs) as (s1 & P & C & G & Cg).
  exists s1. split; [exact P|].
  destruct (Hr e s1 Hm P) as (-> & B & _).
  split; [reflexivity|]. split; [exact B|]. repeat split; assumption.
Qed.

Lemma background_loop_never_stops_witness :
  let st := Fixture.loaded Fixture.model_broken Fixture.schema3 in
  let s2 := snd (_runner 2 Fixture.env_down st) in
  let s3 := snd (_runner 3 Fixture.env_down st) in
  fst (_runner 3 Fixture.env_down st) = Ok tt
  /\ count_events is_sleep30 s2 = 2%nat
  /\ count_events is_background_error s3
     = S (count_events is_background_error s2)
  /\ same_registry s2 s3.
Proof.
  intros st s2 s3.
  pose proof (background_loop_never_stops Fixture.env_down 2 st) as H.
  cbv zeta in H. fold s2 s3 in H.
  destruct H as (_ & F & S & _ & _ & _ & _ & R).
  split; [exact F|]. split; [exact S|].
  destruct (R (RuntimeError "worker pool is shut down")) as (s1 & _ & _ & B & G).
  - vm_compute. discriminate.
  - vm_compute. discriminate.
  - apply (raises_predict Fixture.env_down s2 Fixture.model_broken [zero; zero; zero]
             (RuntimeError "worker pool is shut down")).
    + vm_compute. reflexivity.
    + vm_compute. reflexivity.
    + reflexivity.
  - split; [exact B|exact G].
Defined.

(** ** The KEDA bridge *)

(** C1, as stated, fails: with every acquisition query failing, the
    snapshot is all zeros, the predictor runs on it, and [keda_metric]
    answers what it predicts, here 5 and not the floor 1. *)
Lemma keda_metric_acquisition_failure_not_floor :
  (forall t query, query_fails Fixture.env_down (prometheus Fixture.env_down t query))
  /\ exists r st',
       keda_metric Fixture.env_down
         (Fixture.loaded (Fixture.model_const (NInt 5)) Fixture.schema3)
       = (Ok r, st')
       /\ metric_value r = 5
       /\ metric_value r <> 1.
Proof.
  split; [intros; apply fails_unreachable|].
  do 2 eexists. split; [vm_compute; reflexivity|].
  split; [reflexivity|discriminate].
Qed.

(** A predictor error that is not a [ValueError] leaves [keda_metric]. *)
Example keda_metric_lets_other_errors_out :
  fst (keda_metric Fixture.env_cpu_mem
         (Fixture.loaded Fixture.model_broken Fixture.schema3))
  = Raise (RuntimeError "worker pool is shut down").
Proof. vm_compute. reflexivity. Qed.

Lemma keda_metric_run (env : Env) (st : State) :
  keda_metric env st
  = match predict_from_prometheus env st with
    | (Ok p, st') =>
        (Ok {| metric_value := predicted_pod_count p;
               keda_timestamp := timestamp p |}, st')
    | (Raise (HTTPException c d), st') =>
        (Ok {| metric_value := 1;
               keda_timestamp := utcnow_isoformat env (S (now st')) |},
         push [EvUtcnow; EvLogError (KedaMetricFailed d)] st')
    | (Raise e, st') => (Raise e, st')
    end.
Proof.
  unfold keda_metric, try_except. unfold bind at 1.
  destruct (predict_from_prometheus env st) as [[p|e] st']; [reflexivity|].
  destruct e; reflexivity.
Qed.

(** C1, amended: [keda_metric] answers the floor 1, without raising,
    whenever the prediction fails with an [HTTPException]: the model is not
    loaded or the schema is empty (503), or the predictor raised a
    [ValueError] (500).  When the prediction succeeds, which it also does on
    the zeros of failed acquisition queries, [keda_metric] answers the
    predicted pod count, at least 1, with the prediction's timestamp. *)
Theorem keda_metric_floor (env : Env) (st : State) :
  (model st = None \/ expected_feature_names st = [] ->
   exists ts st', keda_metric env st
                  = (Ok {| metric_value := 1; keda_timestamp := ts |}, st'))
  /\ (forall mdl x msg,
        model st = Some mdl ->
        expected_feature_names st <> [] ->
        build_feature_vector (expected_feature_names st) (snapshot env st) = Ok x ->
        predict mdl x = Raise (ValueError msg) ->
        exists ts st', keda_metric env st
                       = (Ok {| metric_value := 1; keda_timestamp := ts |}, st'))
  /\ (forall c d st1,
        predict_from_prometheus env st = (Raise (HTTPException c d), st1) ->
        exists ts st', keda_metric env st
                       = (Ok {| metric_value := 1; keda_timestamp := ts |}, st'))
  /\ (forall p st1,
        predict_from_prometheus env st = (Ok p, st1) ->
        keda_metric env st
        = (Ok {| metric_value := predicted_pod_count p;
                 keda_timestamp := timestamp p |}, st1)
        /\ 1 <= predicted_pod_count p).
Proof.
  assert (H3 : forall c d st1,
             predict_from_prometheus env st = (Raise (HTTPException c d), st1) ->
             exists ts st', keda_metric env st
                            = (Ok {| metric_value := 1; keda_timestamp := ts |}, st')).
  { intros c d st1 H. rewrite keda_metric_run, H. do 2 eexists. reflexivity. }
  split; [|split; [|split; [exact H3|]]].
  - intros H. apply (H3 503 "Model not loaded or feature names unavailable" st).
    rewrite predict_from_prometheus_run. unfold predict_run.
    destruct H as [-> | ->]; [reflexivity|]. destruct (model st); reflexivity.
  - intros mdl x msg Hm Hn Hx Hp.
    apply (H3 500 ("Prediction failed: " ++ msg)
              (push [EvPredict x] (after_acquisition env st))).
    rewrite predict_from_prometheus_run. unfold predict_run. rewrite Hm.
    destruct (expected_feature_names st) as [|n ns]; [contradiction|].
    rewrite Hx, Hp. reflexivity.
  - intros p st1 H. rewrite keda_metric_run, H. split; [reflexivity|].
    destruct (predict_ok_inv env st p st1 H)
      as (mdl & x & raw & st3 & _ & _ & _ & _ & R & _).
    exact (replica_count_floor raw _ R).
Qed.

Lemma keda_metric_floor_witness :
  (exists ts st', keda_metric Fixture.env_cpu_mem Fixture.not_loaded
                  = (Ok {| metric_value := 1; keda_timestamp := ts |}, st'))
  /\ (exists ts st',
        keda_metric Fixture.env_cpu_mem
          (Fixture.loaded Fixture.model_five_features Fixture.schema3)
        = (Ok {| metric_value := 1; keda_timestamp := ts |}, st'))
  /\ fst (keda_metric Fixture.env_cpu_mem
            (Fixture.loaded Fixture.model_first Fixture.schema3))
     = Ok {| metric_value := 40; keda_timestamp := Fixture.clock 8 |}.
Proof.
  split; [|split].
  - apply (proj1 (keda_metric_floor Fixture.env_cpu_mem Fixture.not_loaded)).
    left. reflexivity.
  - apply (proj1 (proj2 (keda_metric_floor Fixture.env_cpu_mem
                           (Fixture.loaded Fixture.model_five_features Fixture.schema3)))
             Fixture.model_five_features [Fixture.f40; zero; Fixture.f512]
             "X has 3 features, but the model is expecting 5 features as input.").
    + reflexivity.
    + discriminate.
    + vm_compute. reflexivity.
    + reflexivity.
  - pose proof (proj2 (proj2 (proj2 (keda_metric_floor Fixture.env_cpu_mem
                  (Fixture.loaded Fixture.model_first Fixture.schema3))))) as H.
    destruct (predict_from_prometheus Fixture.env_cpu_mem
                (Fixture.loaded Fixture.model_first Fixture.schema3)) as [r st1] eqn:E.
    vm_compute in E. injection E as <- <-.
    destruct (H _ _ eq_refl) as [K _]. rewrite K. vm_compute. reflexivity.
Defined.

(** ** Repeated predictions *)

(** C2, as stated, fails: two calls in immediate succession each query the
    store and run the predictor; when the store's answer has moved in
    between, the second call returns another prediction. *)
Lemma predict_twice_runs_inference_twice :
  exists p1 st1 p2 st2,
    predict_from_prometheus Fixture.env_drifting
      (Fixture.loaded Fixture.model_first ["cpu_usage"]) = (Ok p1, st1)
    /\ predict_from_prometheus Fixture.env_drifting st1 = (Ok p2, st2)
    /\ predicted_pod_count p1 = 40
    /\ predicted_pod_count p2 = 512
    /\ p1 <> p2
    /\ count_events is_predict st2 = 2%nat
    /\ prediction_counter st2 = 2%nat.
Proof.
  do 4 eexists. split; [vm_compute; reflexivity|].
  split; [vm_compute; reflexivity|].
  split; [reflexivity|]. split; [reflexivity|].
  split; [intros H; apply (f_equal predicted_pod_count) in H; discriminate|].
  split; vm_compute; reflexivity.
Qed.

(** With a store that answers each query the same at all times, the
    readings do not depend on when they are taken. *)
Lemma readings_stable (env : Env) (qs : list string) (st st' : State) :
  (forall t t' q, prometheus env t q = prometheus env t' q) ->
  readings env qs st = readings env qs st'.
Proof.
  intros H. revert st st'. induction qs as [|q rest IH]; intros st st'; simpl.
  - reflexivity.
  - rewrite (H (now st) (now st') q). f_equal. apply IH.
Qed.

Lemma confidence_run_fst (mdl : Model) (x : list float) (st st' : State) :
  fst (confidence_run mdl x st) = fst (confidence_run mdl x st').
Proof. unfold confidence_run. destruct (predict_proba mdl); reflexivity. Qed.

(** What one successful call does to the state. *)
Lemma predict_ok_effects (env : Env) (st : State) (p : PredictionResponse)
    (st' : State) :
  predict_from_prometheus env st = (Ok p, st') ->
  count_events is_predict st' = S (count_events is_predict st)
  /\ count_events is_query st' = (6 + count_events is_query st)%nat
  /\ prediction_counter st' = S (prediction_counter st)
  /\ prediction_gauge st' = of_Z (predicted_pod_count p)
  /\ model_confidence_gauge st' = confidence p
  /\ same_globals st st'.
Proof.
  intros H.
  destruct (predict_ok_inv env st p st' H)
    as (mdl & x & raw & st3 & _ & _ & _ & _ & _ & _ & _ & E3 & E' & _).
  destruct (after_acquisition_push env st) as (eva & Ea & Qa & Pa & _).
  destruct (confidence_run_push mdl x (push [EvPredict x] (after_acquisition env st)))
    as (evc & Ec & Qc & Pc & _).
  rewrite <- E3, Ea, push_push in Ec. subst st'. rewrite Ec.
  unfold count_events. cbn [push publish trace prediction_counter prediction_gauge
                              model_confidence_gauge].
  rewrite !filter_app, Pc, Pa, Qc. cbn [filter is_predict is_query].
  rewrite !length_app, Qa. cbn [List.length app].
  repeat split; lia.
Qed.

(** C2, amended: nothing is cached.  Every successful call of the
    synchronous prediction query sends the six store queries, runs the
    predictor once and counts one more served prediction, so two calls in
    succession run two inferences; they agree on pod count, confidence and
    snapshot when the store answers each query the same at all times, the
    timestamp being read from the clock at each call. *)
Theorem predict_from_prometheus_recomputes (env : Env) (st : State)
    (p1 : PredictionResponse) (st1 : State) (p2 : PredictionResponse) (st2 : State)
    (H1 : predict_from_prometheus env st = (Ok p1, st1))
    (H2 : predict_from_prometheus env st1 = (Ok p2, st2)) :
  count_events is_predict st1 = S (count_events is_predict st)
  /\ count_events is_query st1 = (6 + count_events is_query st)%nat
  /\ prediction_counter st1 = S (prediction_counter st)
  /\ count_events is_predict st2 = S (S (count_events is_predict st))
  /\ count_events is_query st2 = (12 + count_events is_query st)%nat
  /\ prediction_counter st2 = S (S (prediction_counter st))
  /\ timestamp p1 = utcnow_isoformat env (pred (now st1))
  /\ timestamp p2 = utcnow_isoformat env (pred (now st2))
  /\ ((forall t t' q, prometheus env t q = prometheus env t' q) ->
      predicted_pod_count p2 = predicted_pod_count p1
      /\ confidence p2 = confidence p1
      /\ metrics_used p2 = metrics_used p1).
Proof.
  destruct (predict_ok_effects env st p1 st1 H1) as (P1 & Q1 & C1 & _ & _ & G1).
  destruct (predict_ok_effects env st1 p2 st2 H2) as (P2 & Q2 & C2 & _ & _ & G2).
  destruct (predict_ok_inv env st p1 st1 H1)
    as (m1 & x1 & r1 & s1 & Hm1 & _ & Hx1 & Hp1 & Hr1 & Hs1 & Hc1 & _ & E1 & T1).
  destruct (predict_ok_inv env st1 p2 st2 H2)
    as (m2 & x2 & r2 & s2 & Hm2 & _ & Hx2 & Hp2 & Hr2 & Hs2 & Hc2 & _ & E2 & T2).
  repeat split; try lia.
  - rewrite T1, E1. reflexivity.
  - rewrite T2, E2. reflexivity.
  - destruct G1 as [Gm Gn]. rewrite Gm, Hm1 in Hm2. injection Hm2 as <-.
    assert (S : snapshot env st1 = snapshot env st).
    { unfold snapshot. now rewrite (readings_stable env _ st1 st H). }
    rewrite Gn, S, Hx1 in Hx2. injection Hx2 as <-.
    rewrite Hp1 in Hp2. injection Hp2 as <-. congruence.
  - destruct G1 as [Gm Gn]. rewrite Gm, Hm1 in Hm2. injection Hm2 as <-.
    assert (S : snapshot env st1 = snapshot env st).
    { unfold snapshot. now rewrite (readings_stable env _ st1 st H). }
    rewrite Gn, S, Hx1 in Hx2. injection Hx2 as <-.
    rewrite Hc1, Hc2. apply confidence_run_fst.
  - assert (S : snapshot env st1 = snapshot env st).
    { unfold snapshot. now rewrite (readings_stable env _ st1 st H). }
    congruence.
Qed.

Lemma predict_from_prometheus_recomputes_witness :
  exists p1 st1 p2 st2,
    predict_from_prometheus Fixture.env_cpu_mem
      (Fixture.loaded Fixture.model_first Fixture.schema3) = (Ok p1, st1)
    /\ predict_from_prometheus Fixture.env_cpu_mem st1 = (Ok p2, st2)
    /\ count_events is_predict st2 = 2%nat
    /\ predicted_pod_count p2 = predicted_pod_count p1
    /\ timestamp p1 = Fixture.clock 8
    /\ timestamp p2 = Fixture.clock 17.
Proof.
  destruct (predict_from_prometheus Fixture.env_cpu_mem
              (Fixture.loaded Fixture.model_first Fixture.schema3))
    as [r1 st1] eqn:E1.
  pose proof E1 as V1. vm_compute in V1.
  destruct r1 as [p1|e]; [|discriminate V1]. injection V1 as <- <-.
  match type of E1 with
  | _ = (_, ?s) =>
      destruct (predict_from_prometheus Fixture.env_cpu_mem s) as [r2 st2] eqn:E2
  end.
  pose proof E2 as V2. vm_compute in V2.
  destruct r2 as [p2|e]; [|discriminate V2]. injection V2 as <- <-.
  do 4 eexists. split; [reflexivity|]. split; [exact E2|].
  pose proof (predict_from_prometheus_recomputes _ _ _ _ _ _ E1 E2)
    as (_ & _ & _ & P & _ & _ & T1 & T2 & S).
  split; [exact P|]. split; [apply S; reflexivity|].
  split; [rewrite T1|rewrite T2]; vm_compute; reflexivity.
Defined.

(** ** The feature aligner *)

Lemma setitem_length {A} (vec : list A) (idx : nat) (v : A) :
  List.length (setitem vec idx v) = List.length vec.
Proof.
  revert idx; induction vec as [|a vec IH]; intros [|i]; simpl; auto.
Qed.

Lemma nth_error_setitem {A} (vec : list A) (idx i : nat) (v : A) :
  (idx < List.length vec)%nat ->
  nth_error (setitem vec idx v) i
  = if Nat.eqb i idx then Some v else nth_error vec i.
Proof.
  revert idx i; induction vec as [|a vec IH]; intros idx i H; simpl in H; [lia|].
  destruct idx as [|idx], i as [|i]; simpl; try reflexivity.
  apply IH. lia.
Qed.

Lemma fill_length (base : list (string * float)) (vec : list float) (p : nat * string) :
  List.length (fill base vec p) = List.length vec.
Proof.
  destruct p as [idx fname]. unfold fill.
  destruct (lookup fname base); [apply setitem_length|reflexivity].
Qed.

(** The loop writes slot [k + j] from the [j]-th name and no other. *)
Lemma fold_fill (base : list (string * float)) (names : list string) :
  forall (k : nat) (vec : list float),
    (k + List.length names <= List.length vec)%nat ->
    let r := fold_left (fill base) (combine (seq k (List.length names)) names) vec in
    List.length r = List.length vec
    /\ forall i,
         nth_error r i
         = if Nat.leb k i
           then match nth_error names (i - k) with
                | Some name =>
                    match lookup name base with
                    | Some v => Some v
                    | None => nth_error vec i
                    end
                | None => nth_error vec i
                end
           else nth_error vec i.
Proof.
  induction names as [|a names IH]; intros k vec H; cbn zeta.
  - simpl. split; [reflexivity|]. intros i.
    destruct (Nat.leb k i); [destruct (i - k)%nat|]; reflexivity.
  - cbn [List.length seq combine fold_left]. cbn [List.length] in H.
    assert (H' : (S k + List.length names <= List.length (fill base vec (k, a)))%nat)
      by (rewrite fill_length; lia).
    destruct (IH (S k) (fill base vec (k, a)) H') as [L N]. cbn zeta in L, N.
    split; [now rewrite L, fill_length|].
    intros i. rewrite N.
    assert (Hfill : forall j, j <> k ->
              nth_error (fill base vec (k, a)) j = nth_error vec j).
    { intros j Hj. unfold fill. destruct (lookup a base); [|reflexivity].
      rewrite nth_error_setitem by lia.
      destruct (Nat.eqb_spec j k); [contradiction|reflexivity]. }
    destruct (Nat.leb_spec (S k) i) as [Hi|Hi].
    + destruct (Nat.leb_spec k i) as [_|]; [|lia].
      replace (i - k)%nat with (S (i - S k)) by lia. cbn [nth_error].
      rewrite Hfill by lia. reflexivity.
    + destruct (Nat.leb_spec k i) as [Hk|Hk].
      * assert (i = k) by lia. subst i. rewrite Nat.sub_diag. cbn [nth_error].
        unfold fill. destruct (lookup a base); [|reflexivity].
        rewrite nth_error_setitem by lia. now rewrite Nat.eqb_refl.
      * apply Hfill. lia.
Qed.

Lemma nth_error_repeat {A} (a : A) (n i : nat) :
  nth_error (repeat a n) i = if Nat.ltb i n then Some a else None.
Proof.
  revert i; induction n as [|n IH]; intros [|i]; simpl; try reflexivity.
  rewrite IH. reflexivity.
Qed.

(** The vector the aligner returns once the dict [base] is built. *)
Lemma build_feature_vector_entries (names : list string) (metrics : PrometheusMetrics)
    (base : list (string * float)) :
  base_metrics metrics = Ok base ->
  exists vec,
    build_feature_vector names metrics = Ok vec
    /\ List.length vec = List.length names
    /\ forall i name,
         nth_error names i = Some name ->
         nth_error vec i = Some (match lookup name base with
                                 | Some v => v
                                 | None => zero
                                 end).
Proof.
  intros Hb. unfold build_feature_vector. rewrite Hb. cbn [rbind].
  eexists. split; [reflexivity|].
  change (fun (vec : list float) (p : nat * string) =>
            let (idx, fname) := p in
            match lookup fname base with
            | Some v => setitem vec idx v
            | None => vec
            end) with (fill base).
  unfold enumerate.
  assert (H : (0 + List.length names <= List.length (repeat zero (List.length names)))%nat)
    by (rewrite repeat_length; lia).
  destruct (fold_fill base names 0 _ H) as [L N]. cbn zeta in L, N.
  split; [now rewrite L, repeat_length|].
  intros i name Hi. rewrite N. cbn [Nat.leb]. rewrite Nat.sub_0_r, Hi.
  destruct (lookup name base); [reflexivity|].
  rewrite nth_error_repeat.
  assert (i < List.length names)%nat by (apply nth_error_Some; congruence).
  destruct (Nat.ltb_spec i (List.length names)); [reflexivity|lia].
Qed.

Lemma base_metrics_ok (metrics : PrometheusMetrics) :
  is_zero (add (memory_usage metrics) eps) = false ->
  exists base,
    base_metrics metrics = Ok base
    /\ (forall name v, raw_metric metrics name = Some v -> lookup name base = Some v)
    /\ (forall name, known_feature name = false -> lookup name base = None)
    /\ lookup "cpu_memory_ratio" base
       = Some (div (cpu_usage metrics) (add (memory_usage metrics) eps)).
Proof.
  intros Hz. unfold base_metrics, Py.truediv. rewrite Hz. cbn [rbind].
  eexists. split; [reflexivity|]. split; [|split; [|reflexivity]].
  - intros name v. unfold raw_metric. cbn [lookup].
    repeat (destruct (String.eqb name _); [intros H; exact H|]). discriminate.
  - intros name. unfold known_feature, raw_metric. cbn [lookup].
    repeat (destruct (String.eqb name _); [discriminate|]). reflexivity.
Qed.

(** ** Alignment to the schema *)

(** C4, as stated, fails: the store can report a memory reading of
    [-1e-06]; for that snapshot [memory_usage + 1e-6] is zero, building
    [base] divides by it, and the aligner raises instead of returning a
    vector. *)
Lemma build_feature_vector_division_by_zero :
  let m := {| cpu_usage := Fixture.f40; memory_usage := Fixture.minus_eps;
              request_rate := Fixture.f40; queue_length := Fixture.f40;
              response_time := Fixture.f40; active_connections := Fixture.f40 |} in
  fst (PrometheusClient.get_workload_metrics Fixture.env_minus_eps Fixture.not_loaded)
  = Ok m
  /\ build_feature_vector Fixture.schema3 m
     = Raise (ZeroDivisionError "float division by zero")
  /\ forall vec, build_feature_vector Fixture.schema3 m <> Ok vec.
Proof.
  cbv zeta. split; [vm_compute; reflexivity|].
  assert (E : build_feature_vector Fixture.schema3
                {| cpu_usage := Fixture.f40; memory_usage := Fixture.minus_eps;
                   request_rate := Fixture.f40; queue_length := Fixture.f40;
                   response_time := Fixture.f40; active_connections := Fixture.f40 |}
              = Raise (ZeroDivisionError "float division by zero"))
    by (vm_compute; reflexivity).
  split; [exact E|]. intros vec. rewrite E. discriminate.
Qed.

(** C4, amended: for every snapshot whose [memory_usage + 1e-6] is not
    zero and every schema, the aligner returns a vector as long as the
    schema, whose i-th entry is the raw metric when the i-th name is one of
    the six acquired fields and zero when the name is unknown; the schema
    ["cpu_usage", "unknown_feat", "memory_usage"] with CPU 40.0 and memory
    512.0 gives [40.0, 0.0, 512.0]. *)
Theorem build_feature_vector_aligned :
  (forall (names : list string) (metrics : PrometheusMetrics),
      is_zero (add (memory_usage metrics) eps) = false ->
      exists vec,
        build_feature_vector names metrics = Ok vec
        /\ List.length vec = List.length names
        /\ forall i name,
             nth_error names i = Some name ->
             (forall v, raw_metric metrics name = Some v -> nth_error vec i = Some v)
             /\ (known_feature name = false -> nth_error vec i = Some zero))
  /\ (forall r q t a,
        build_feature_vector ["cpu_usage"; "unknown_feat"; "memory_usage"]
          {| cpu_usage := Fixture.f40; memory_usage := Fixture.f512;
             request_rate := r; queue_length := q;
             response_time := t; active_connections := a |}
        = Ok [Fixture.f40; zero; Fixture.f512]).
Proof.
  split.
  - intros names metrics Hz.
    destruct (base_metrics_ok metrics Hz) as (base & Hb & Hraw & Hunk & _).
    destruct (build_feature_vector_entries names metrics base Hb) as (vec & E & L & N).
    exists vec. split; [exact E|]. split; [exact L|].
    intros i name Hi. rewrite (N i name Hi). split.
    + intros v Hv. now rewrite (Hraw name v Hv).
    + intros Hk. now rewrite (Hunk name Hk).
  - intros r q t a. vm_compute. reflexivity.
Qed.

Lemma build_feature_vector_aligned_witness :
  is_zero (add Fixture.f512 eps) = false
  /\ exists vec,
       build_feature_vector Fixture.schema3
         (snapshot Fixture.env_cpu_mem Fixture.not_loaded) = Ok vec
       /\ List.length vec = 3%nat
       /\ nth_error vec 0 = Some Fixture.f40
       /\ nth_error vec 1 = Some zero
       /\ nth_error vec 2 = Some Fixture.f512.
Proof.
  assert (Hz : is_zero (add (memory_usage (snapshot Fixture.env_cpu_mem Fixture.not_loaded))
                          eps) = false) by (vm_compute; reflexivity).
  split; [vm_compute; reflexivity|].
  destruct (proj1 build_feature_vector_aligned Fixture.schema3
              (snapshot Fixture.env_cpu_mem Fixture.not_loaded) Hz)
    as (vec & E & L & N).
  exists vec. split; [exact E|]. split; [exact L|].
  split; [|split].
  - apply (proj1 (N 0%nat "cpu_usage" eq_refl)). vm_compute. reflexivity.
  - apply (proj2 (N 1%nat "unknown_feat" eq_refl)). reflexivity.
  - apply (proj1 (N 2%nat "memory_usage" eq_refl)). vm_compute. reflexivity.
Defined.

(** ** Binary rounding keeps positive sums positive *)

Section BinaryRounding.

Variables prec emax : Z.
Hypothesis prec_pos : 0 < prec.

Lemma digits2_pos_size (p : positive) : digits2_pos p = Pos.size p.
Proof. induction p; simpl; congruence. Qed.

Lemma Zdigits2_log2 (p : positive) : Zdigits2 (Z.pos p) = Z.log2 (Z.pos p) + 1.
Proof.
  unfold Zdigits2. rewrite digits2_pos_size.
  destruct p; simpl; try reflexivity; rewrite Pos2Z.inj_succ; lia.
Qed.

Lemma shr_1_m (mrs : shr_record) :
  0 <= shr_m mrs -> shr_m (shr_1 mrs) = shr_m mrs / 2.
Proof.
  destruct mrs as [m r s]. simpl. intros H. rewrite <- Z.div2_div.
  destruct m as [|p|p]; [reflexivity| |lia].
  destruct p; reflexivity.
Qed.

Lemma pow2_xI (p : positive) : 2 ^ Z.pos p~1 = 2 * (2 ^ Z.pos p * 2 ^ Z.pos p).
Proof.
  rewrite (Pos2Z.inj_xI p). replace (2 * Z.pos p + 1) with (1 + (Z.pos p + Z.pos p)) by lia.
  rewrite !Z.pow_add_r by lia. now rewrite Z.pow_1_r.
Qed.

Lemma pow2_xO (p : positive) : 2 ^ Z.pos p~0 = 2 ^ Z.pos p * 2 ^ Z.pos p.
Proof.
  rewrite (Pos2Z.inj_xO p). replace (2 * Z.pos p) with (Z.pos p + Z.pos p) by lia.
  now rewrite !Z.pow_add_r by lia.
Qed.

Lemma iter_shr_1_m (p : positive) :
  forall mrs, 0 <= shr_m mrs ->
    shr_m (iter_pos shr_1 p mrs) = shr_m mrs / 2 ^ Z.pos p.
Proof.
  assert (P2 : forall q, 0 < 2 ^ Z.pos q) by (intros; apply Z.pow_pos_nonneg; lia).
  induction p as [p IH|p IH|]; intros mrs H; simpl iter_pos.
  - assert (H1 : 0 <= shr_m (shr_1 mrs))
      by (rewrite shr_1_m by exact H; apply Z.div_pos; lia).
    assert (H2 : 0 <= shr_m (iter_pos shr_1 p (shr_1 mrs)))
      by (rewrite IH by exact H1; apply Z.div_pos; [lia|apply P2]).
    rewrite IH, IH, shr_1_m by assumption.
    pose proof (P2 p).
    rewrite !Z.div_div by lia. now rewrite pow2_xI.
  - assert (H2 : 0 <= shr_m (iter_pos shr_1 p mrs))
      by (rewrite IH by exact H; apply Z.div_pos; [lia|apply P2]).
    rewrite IH, IH by assumption. pose proof (P2 p).
    rewrite !Z.div_div by lia. now rewrite pow2_xO.
  - rewrite shr_1_m by exact H. now rewrite Z.pow_1_r.
Qed.


Lemma shr_fexp_above (m e : Z) (l : location) :
  above_emin prec emax m e ->
  above_emin prec emax (shr_m (fst (shr_fexp prec emax m e l))) (snd (shr_fexp prec emax m e l)).
Proof.
  intros [Hm He]. unfold shr_fexp, shr.
  destruct m as [|p|p]; try lia.
  rewrite Zdigits2_log2.
  assert (Sm : forall l, shr_m (shr_record_of_loc (Z.pos p) l) = Z.pos p)
    by (intros [|[]]; reflexivity).
  destruct (fexp prec emax (Z.log2 (Z.pos p) + 1 + e) - e) as [|n|n] eqn:En;
    cbn [fst snd]; rewrite ?Sm; try (split; assumption).
  rewrite iter_shr_1_m by (rewrite Sm; lia). rewrite Sm.
  unfold fexp in En.
  assert (Hn : Z.pos n <= Z.log2 (Z.pos p)) by lia.
  rewrite <- Z.shiftr_div_pow2 by lia.
  assert (L : Z.log2 (Z.shiftr (Z.pos p) (Z.pos n)) = Z.log2 (Z.pos p) - Z.pos n)
    by (rewrite Z.log2_shiftr by lia; lia).
  split; [|lia].
  rewrite Z.shiftr_div_pow2 by lia. apply Z.div_str_pos. split.
  - apply Z.pow_pos_nonneg; lia.
  - apply Z.le_trans with (2 ^ Z.log2 (Z.pos p)).
    + apply Z.pow_le_mono_r; lia.
    + apply Z.log2_spec. lia.
Qed.

Lemma round_nearest_even_above (m e : Z) (l : location) :
  above_emin prec emax m e -> above_emin prec emax (round_nearest_even m l) e.
Proof.
  intros [Hm He].
  assert (H : m <= round_nearest_even m l).
  { unfold round_nearest_even. destruct l as [|[]]; try destruct (Z.even m); lia. }
  pose proof (Z.log2_le_mono _ _ H). split; lia.
Qed.

Lemma binary_round_aux_nonzero (sx : bool) (mx ex : Z) (lx : location) :
  above_emin prec emax mx ex -> signed_nonzero sx (binary_round_aux prec emax sx mx ex lx).
Proof.
  intros H. unfold binary_round_aux.
  pose proof (shr_fexp_above mx ex lx H) as H1.
  destruct (shr_fexp prec emax mx ex lx) as [mrs' e']. cbn [fst snd] in H1.
  apply (round_nearest_even_above _ _ (loc_of_shr_record mrs')) in H1.
  apply (shr_fexp_above _ _ loc_Exact) in H1.
  destruct (shr_fexp prec emax _ e' loc_Exact) as [mrs'' e'']. cbn [fst snd] in H1.
  destruct H1 as [Hm _]. destruct (shr_m mrs'') as [|m|m]; try lia.
  destruct (e'' <=? emax - prec); reflexivity.
Qed.

Lemma shl_align_spec (mx : positive) (ex ex' : Z) :
  ex' <= ex ->
  snd (shl_align mx ex ex') = ex'
  /\ Z.log2 (Z.pos (fst (shl_align mx ex ex'))) + ex' = Z.log2 (Z.pos mx) + ex.
Proof.
  intros H. unfold shl_align. destruct (ex' - ex) as [|d|d] eqn:E; cbn [fst snd]; try lia.
  split; [reflexivity|].
  change (Z.pos (PosDef.Pos.iter xO mx d)) with (Z.pos (shift_pos d mx)).
  rewrite shift_pos_correct. change (Z.pow_pos 2 d) with (2 ^ Z.pos d).
  rewrite Z.mul_comm, Z.log2_mul_pow2 by lia. lia.
Qed.

Lemma shl_align_mag (mx : positive) (ex ex' : Z) :
  Z.log2 (Z.pos (fst (shl_align mx ex ex'))) + snd (shl_align mx ex ex')
  = Z.log2 (Z.pos mx) + ex.
Proof.
  destruct (Z.le_gt_cases ex' ex) as [H|H].
  - destruct (shl_align_spec mx ex ex' H) as [-> E]. exact E.
  - unfold shl_align. destruct (ex' - ex) eqn:E; cbn [fst snd]; try lia.
Qed.

Lemma binary_round_nonzero (sx : bool) (mx : positive) (ex : Z) :
  emin prec emax < Z.log2 (Z.pos mx) + 1 + ex ->
  signed_nonzero sx (binary_round prec emax sx mx ex).
Proof.
  intros H. unfold binary_round.
  pose proof (shl_align_mag mx ex (fexp prec emax (Z.pos (digits2_pos mx) + ex))) as M.
  destruct (shl_align mx ex _) as [mz ez]. cbn [fst snd] in M.
  apply binary_round_aux_nonzero. split; lia.
Qed.

(** Adding a positive float of magnitude above [2 ^ emin] to a
    non-negative finite float gives a positive float. *)
Lemma SFadd_pos_nonzero (mx : positive) (ex : Z) (my : positive) (ey : Z) :
  emin prec emax < Z.log2 (Z.pos my) + 1 + ey ->
  signed_nonzero false
    (SFadd prec emax (S754_finite false mx ex) (S754_finite false my ey)).
Proof.
  intros H. unfold SFadd, cond_Zopp.
  set (ez := Z.min ex ey).
  destruct (shl_align_spec my ey ez ltac:(lia)) as [_ E].
  set (a := fst (shl_align mx ex ez)). set (b := fst (shl_align my ey ez)) in *.
  change (Z.pos a + Z.pos b) with (Z.pos (a + b)).
  cbn [binary_normalize]. apply binary_round_nonzero.
  assert (L : Z.log2 (Z.pos b) <= Z.log2 (Z.pos (a + b)))
    by (apply Z.log2_le_mono; lia).
  lia.
Qed.

End BinaryRounding.

Lemma add_eps_positive (x : float) :
  leb zero x = true ->
  ltb zero (add x eps) = true /\ is_zero (add x eps) = false.
Proof.
  destruct x as [s|s| |s m e]; try discriminate.
  - intros _. split; reflexivity.
  - destruct s; [discriminate|]. intros _. split; reflexivity.
  - destruct s; [discriminate|]. intros _.
    assert (P : 0 < prec) by reflexivity.
    assert (E : emin prec emax < Z.log2 (Z.pos 4722366482869645) + 1 + -72)
      by (vm_compute; reflexivity).
    pose proof (SFadd_pos_nonzero prec emax P m e _ _ E) as H.
    unfold add, eps.
    destruct (SFadd prec emax (S754_finite false m e)
                (S754_finite false 4722366482869645 (-72))) as [s|s| |s m' e'];
      cbn [signed_nonzero] in H; try contradiction; subst s; split; reflexivity.
Qed.

(** ** Integers held exactly *)

Lemma shl_align_value (mx : positive) (ex ex' : Z) :
  ex' <= ex ->
  Z.pos (fst (shl_align mx ex ex')) = Z.pos mx * 2 ^ (ex - ex').
Proof.
  intros H. unfold shl_align. destruct (ex' - ex) as [|d|d] eqn:E; cbn [fst snd]; try lia.
  - replace (ex - ex') with 0 by lia. lia.
  - change (Z.pos (PosDef.Pos.iter xO mx d)) with (Z.pos (shift_pos d mx)).
    rewrite shift_pos_correct. change (Z.pow_pos 2 d) with (2 ^ Z.pos d).
    replace (ex - ex') with (Z.pos d) by lia. lia.
Qed.

(** A mantissa of 53 bits with an exponent in range is kept as it is. *)
Lemma binary_round_aux_exact (sx : bool) (m : positive) (e : Z) :
  Z.log2 (Z.pos m) = 52 -> -1074 <= e <= 971 ->
  binary_round_aux prec emax sx (Z.pos m) e loc_Exact = S754_finite sx m e.
Proof.
  intros L He.
  assert (F : fexp prec emax (Zdigits2 (Z.pos m) + e) - e = 0).
  { rewrite Zdigits2_log2, L. unfold fexp, emin, prec, emax. lia. }
  unfold binary_round_aux, shr_fexp. rewrite F.
  cbn [shr shr_record_of_loc shr_m loc_of_shr_record shr_r shr_s round_nearest_even].
  rewrite F. cbn [shr shr_record_of_loc shr_m].
  replace (e <=? emax - prec) with true; [reflexivity|].
  symmetry. apply Z.leb_le. unfold emax, prec. lia.
Qed.

Lemma binary_round_exact (sx : bool) (p : positive) :
  Z.pos p < 2 ^ 53 ->
  exists m e, binary_round prec emax sx p 0 = S754_finite sx m e
              /\ -52 <= e <= 0 /\ Z.pos m = Z.pos p * 2 ^ (- e).
Proof.
  intros Hp.
  assert (L : 0 <= Z.log2 (Z.pos p) < 53).
  { split; [apply Z.log2_nonneg|]. apply Z.log2_lt_pow2; lia. }
  unfold binary_round.
  change (Z.pos (digits2_pos p)) with (Zdigits2 (Z.pos p)).
  rewrite Zdigits2_log2.
  assert (F : fexp prec emax (Z.log2 (Z.pos p) + 1 + 0) = Z.log2 (Z.pos p) - 52).
  { unfold fexp, emin, prec, emax. lia. }
  rewrite F.
  destruct (shl_align_spec p 0 (Z.log2 (Z.pos p) - 52) ltac:(lia)) as [S1 S2].
  pose proof (shl_align_value p 0 (Z.log2 (Z.pos p) - 52) ltac:(lia)) as S3.
  destruct (shl_align p 0 (Z.log2 (Z.pos p) - 52)) as [mz ez]. cbn [fst snd] in *.
  subst ez. exists mz, (Z.log2 (Z.pos p) - 52).
  split; [apply binary_round_aux_exact; lia|].
  split; [lia|]. rewrite S3, Z.sub_0_l. reflexivity.
Qed.

(** An int below [2 ^ 53] in magnitude has a float, and the float is the
    int. *)
Lemma float_of_int_exact (n : Z) :
  Z.abs n < 2 ^ 53 ->
  float_of_int n = Ok (of_Z n) /\ (to_Q (of_Z n) == inject_Z n)%Q.
Proof.
  intros H. unfold float_of_int, of_Z, binary_normalize.
  destruct n as [|p|p].
  - split; reflexivity.
  - destruct (binary_round_exact false p ltac:(lia)) as (m & e & -> & He & Hm).
    split; [reflexivity|]. cbn [to_Q].
    destruct (Z.leb_spec 0 e) as [E|E].
    + replace e with 0 in * by lia. rewrite Z.pow_0_r, Z.mul_1_r in *.
      unfold Qeq, inject_Z. cbn [Qnum Qden]. lia.
    + unfold Qeq, inject_Z. cbn [Qnum Qden].
      rewrite Z2Pos.id by (apply Z.pow_pos_nonneg; lia). lia.
  - destruct (binary_round_exact true p ltac:(lia)) as (m & e & -> & He & Hm).
    split; [reflexivity|]. cbn [to_Q].
    destruct (Z.leb_spec 0 e) as [E|E].
    + replace e with 0 in * by lia. rewrite Z.pow_0_r, Z.mul_1_r in *.
      unfold Qeq, inject_Z. cbn [Qnum Qden]. lia.
    + unfold Qeq, inject_Z. cbn [Qnum Qden].
      rewrite Z2Pos.id by (apply Z.pow_pos_nonneg; lia). lia.
Qed.

(** ** Rounding *)

Lemma div_half_even_nearest (n d : Z) :
  0 < d ->
  2 * Z.abs (div_half_even n d * d - n) <= d
  /\ (2 * Z.abs (div_half_even n d * d - n) = d -> Z.even (div_half_even n d) = true).
Proof.
  intros Hd. unfold div_half_even.
  pose proof (Z.div_mod n d ltac:(lia)) as E.
  pose proof (Z.mod_pos_bound n d Hd) as B.
  set (q := n / d) in *. set (r := n mod d) in *.
  destruct (Z.compare_spec (2 * r) d) as [C|C|C].
  - destruct (Z.even q) eqn:Ev.
    + split; [nia|auto].
    + split; [nia|]. intros _.
      replace (q + 1) with (Z.succ q) by lia.
      now rewrite Z.even_succ, <- Z.negb_even, Ev.
  - split; [nia|]. intros H. exfalso. nia.
  - split; [nia|]. intros H. exfalso. nia.
Qed.

Lemma Qabs_diff_frac (r n : Z) (p : positive) :
  Qabs (inject_Z r - (n # p)) = (Z.abs (r * Z.pos p - n) # p)%Q.
Proof.
  unfold Qminus, Qplus, Qopp, Qabs, inject_Z. cbn [Qnum Qden].
  f_equal. f_equal. lia.
Qed.

Lemma round_half_even_nearest (x : float) :
  is_finite x = true -> rounds_to (NFloat x) (round_half_even x).
Proof.
  intros Hf. split; [exact Hf|].
  destruct x as [s|s| |s m e]; try discriminate; cbn [round_half_even to_Q].
  - split; [discriminate|]. reflexivity.
  - set (n := if s then Z.neg m else Z.pos m).
    destruct (Z.leb_spec 0 e) as [He|He].
    + assert (Qabs (inject_Z (n * 2 ^ e) - inject_Z (n * 2 ^ e)) == 0)%Q as Z0.
      { rewrite Qabs_wd with (y := 0%Q); [reflexivity|ring]. }
      split.
      * rewrite Z0. discriminate.
      * rewrite Z0. intros H. discriminate H.
    + assert (Hd : 0 < 2 ^ (- e)) by (apply Z.pow_pos_nonneg; lia).
      destruct (div_half_even_nearest n (2 ^ (- e)) Hd) as [L T].
      rewrite Qabs_diff_frac, Z2Pos.id by exact Hd.
      split.
      * unfold Qle. cbn [Qnum Qden]. rewrite Z2Pos.id by exact Hd. lia.
      * unfold Qeq. cbn [Qnum Qden]. rewrite Z2Pos.id by exact Hd.
        intros H. apply T. lia.
Qed.

Lemma replica_count_rounds (raw : num) (pods : Z) :
  replica_count raw = Ok pods ->
  exists n, rounds_to raw n /\ pods = Z.max 1 n.
Proof.
  unfold replica_count, rbind. destruct raw as [k|x].
  - intros H. injection H as <-. exists k. split; reflexivity.
  - destruct x as [s|s| |s m e]; try discriminate; cbn [Py.round];
      intros H; injection H as <-; eexists;
      (split; [apply round_half_even_nearest; reflexivity|reflexivity]).
Qed.

Lemma replica_count_total (raw : num) :
  num_is_finite raw = true -> exists pods, replica_count raw = Ok pods.
Proof.
  unfold replica_count, rbind. destruct raw as [k|x]; [eexists; reflexivity|].
  destruct x; try discriminate; intros _; eexists; reflexivity.
Qed.

(** ** The replica count *)

(** C3, as stated, fails.  A predictor that answers NaN has given a raw
    numeric output for which no count is published: the conversion raises
    and the endpoint returns nothing.  A predictor that answers the integer
    [2 ^ 53 + 1] gets that count in the response, but the gauge is set to
    the float of it, which is [2 ^ 53]. *)
Lemma published_count_is_not_the_rounded_raw :
  (exists st',
     predict_from_prometheus Fixture.env_cpu_mem
       (Fixture.loaded (Fixture.model_const (NFloat S754_nan)) Fixture.schema3)
     = (Raise (ValueError "cannot convert float NaN to integer"), st')
     /\ prediction_counter st' = 0%nat
     /\ prediction_gauge st' = zero)
  /\ (exists p st',
        predict_from_prometheus Fixture.env_cpu_mem
          (Fixture.loaded (Fixture.model_const (NInt (2 ^ 53 + 1))) Fixture.schema3)
        = (Ok p, st')
        /\ rounds_to (NInt (2 ^ 53 + 1)) (predicted_pod_count p)
        /\ predicted_pod_count p = 2 ^ 53 + 1
        /\ (to_Q (prediction_gauge st') == inject_Z (2 ^ 53))%Q
        /\ ~ (to_Q (prediction_gauge st') == inject_Z (predicted_pod_count p))%Q).
Proof.
  split.
  - eexists. split; [vm_compute; reflexivity|]. split; reflexivity.
  - do 2 eexists. split; [vm_compute; reflexivity|].
    split; [reflexivity|]. split; [reflexivity|].
    split; [vm_compute; reflexivity|]. vm_compute. discriminate.
Qed.

(** C3, amended: for every finite raw output of the predictor, of any
    sign or magnitude, the replica count is the raw value rounded to the
    nearest integer (the even one at a tie), then floored at 1, and for a
    NaN or an infinity the conversion raises, so that the endpoint returns
    nothing and publishes nothing.  Every [PredictionResponse] returned
    carries such a count, at least 1; the gauge is set to the float of the
    count, which is the count itself below [2 ^ 53]. *)
Theorem replica_count_rounds_and_floors :
  (forall raw, num_is_finite raw = true ->
     exists n, rounds_to raw n /\ replica_count raw = Ok (Z.max 1 n))
  /\ (forall raw, num_is_finite raw = false ->
        exists e, replica_count raw = Raise e)
  /\ (forall raw pods, replica_count raw = Ok pods ->
        1 <= pods /\ exists n, rounds_to raw n /\ pods = Z.max 1 n)
  /\ (forall env st p st',
        predict_from_prometheus env st = (Ok p, st') ->
        1 <= predicted_pod_count p
        /\ float_of_int (predicted_pod_count p) = Ok (prediction_gauge st')
        /\ prediction_gauge st' = of_Z (predicted_pod_count p)
        /\ (predicted_pod_count p < 2 ^ 53 ->
            (to_Q (prediction_gauge st') == inject_Z (predicted_pod_count p))%Q)
        /\ exists mdl x raw n,
             model st = Some mdl
             /\ build_feature_vector (expected_feature_names st) (metrics_used p) = Ok x
             /\ predict mdl x = Ok raw
             /\ num_is_finite raw = true
             /\ rounds_to raw n
             /\ predicted_pod_count p = Z.max 1 n)
  /\ (forall env st mdl x raw,
        model st = Some mdl ->
        expected_feature_names st <> [] ->
        build_feature_vector (expected_feature_names st) (snapshot env st) = Ok x ->
        predict mdl x = Ok raw ->
        num_is_finite raw = false ->
        exists e st', predict_from_prometheus env st = (Raise e, st')
                      /\ same_registry st st').
Proof.
  assert (N : forall raw, num_is_finite raw = false ->
                exists e, replica_count raw = Raise e).
  { intros [k|x]; [discriminate|].
    destruct x; try discriminate; intros _; eexists; reflexivity. }
  split; [|split; [exact N|split; [|split]]].
  - intros raw Hf. destruct (replica_count_total raw Hf) as (pods & E).
    destruct (replica_count_rounds raw pods E) as (n & R & ->).
    exists n. split; assumption.
  - intros raw pods E. split; [exact (replica_count_floor raw pods E)|].
    exact (replica_count_rounds raw pods E).
  - intros env st p st' H.
    destruct (predict_ok_inv env st p st' H)
      as (mdl & x & raw & st3 & Hm & _ & Hx & Hp & Hr & Hs & _).
    destruct (predict_ok_effects env st p st' H) as (_ & _ & _ & G & _).
    pose proof (replica_count_floor raw _ Hr) as F.
    split; [exact F|]. rewrite G.
    split; [exact (predict_ok_gauge env st p st' H)|]. split; [reflexivity|].
    split; [intros B; apply float_of_int_exact; lia|].
    destruct (replica_count_rounds raw _ Hr) as (n & R & E).
    exists mdl, x, raw, n. rewrite Hs.
    assert (Hf : num_is_finite raw = true).
    { destruct (num_is_finite raw) eqn:Ef; [reflexivity|].
      destruct (N raw Ef) as (e & Er). rewrite Er in Hr. discriminate. }
    repeat split; assumption.
  - intros env st mdl x raw Hm Hn Hx Hp Hf.
    destruct (N raw Hf) as (e & Er).
    destruct (stage_raises_run env st e) as (st1 & E1 & R1).
    + rewrite Hm. discriminate.
    + exact Hn.
    + exact (raises_convert env st mdl x raw e Hm Hx Hp Er).
    + exists e, st1. split; assumption.
Qed.

Example replica_count_cases :
  replica_count (NFloat RoundingCases.two_and_half) = Ok 2
  /\ replica_count (NFloat RoundingCases.three_and_half) = Ok 4
  /\ replica_count (NFloat RoundingCases.minus_half) = Ok 1
  /\ replica_count (NFloat RoundingCases.minus_seven) = Ok 1
  /\ replica_count (NFloat zero) = Ok 1
  /\ replica_count (NInt 0) = Ok 1
  /\ replica_count (NInt 12) = Ok 12
  /\ (exists n, replica_count (NFloat RoundingCases.huge) = Ok n /\ 10 ^ 299 < n).
Proof.
  repeat (split; [vm_compute; reflexivity|]).
  eexists. split; [vm_compute; reflexivity|]. vm_compute. reflexivity.
Qed.

Lemma replica_count_rounds_and_floors_witness :
  (exists n, rounds_to (NFloat RoundingCases.two_and_half) n
             /\ replica_count (NFloat RoundingCases.two_and_half) = Ok (Z.max 1 n))
  /\ (replica_count (NFloat RoundingCases.minus_seven) = Ok 1
      /\ exists n, rounds_to (NFloat RoundingCases.minus_seven) n /\ 1 = Z.max 1 n)
  /\ (exists p st',
        predict_from_prometheus Fixture.env_cpu_mem
          (Fixture.loaded Fixture.model_first Fixture.schema3) = (Ok p, st')
        /\ 1 <= predicted_pod_count p
        /\ (to_Q (prediction_gauge st') == inject_Z (predicted_pod_count p))%Q)
  /\ (exists e st',
        predict_from_prometheus Fixture.env_cpu_mem
          (Fixture.loaded (Fixture.model_const (NFloat (S754_infinity false)))
             Fixture.schema3) = (Raise e, st')
        /\ same_registry
             (Fixture.loaded (Fixture.model_const (NFloat (S754_infinity false)))
                Fixture.schema3) st').
Proof.
  split; [|split; [|split]].
  - apply (proj1 replica_count_rounds_and_floors). reflexivity.
  - assert (E : replica_count (NFloat RoundingCases.minus_seven) = Ok 1)
      by (vm_compute; reflexivity).
    split; [exact E|].
    exact (proj2 (proj1 (proj2 (proj2 replica_count_rounds_and_floors)) _ _ E)).
  - destruct (predict_from_prometheus Fixture.env_cpu_mem
                (Fixture.loaded Fixture.model_first Fixture.schema3))
      as [r st'] eqn:E.
    pose proof E as V. vm_compute in V.
    destruct r as [p|e]; [|discriminate V].
    assert (B : predicted_pod_count p < 2 ^ 53)
      by (injection V as <- _; vm_compute; reflexivity).
    clear V. exists p, st'. split; [reflexivity|].
    destruct (proj1 (proj2 (proj2 (proj2 replica_count_rounds_and_floors))) _ _ _ _ E)
      as (F & _ & _ & G & _).
    split; [exact F|exact (G B)].
  - apply (proj2 (proj2 (proj2 (proj2 replica_count_rounds_and_floors)))
             Fixture.env_cpu_mem _
             (Fixture.model_const (NFloat (S754_infinity false)))
             [Fixture.f40; zero; Fixture.f512] (NFloat (S754_infinity false))).
    + reflexivity.
    + discriminate.
    + vm_compute. reflexivity.
    + reflexivity.
    + reflexivity.
Defined.

(** ** The engineered ratio *)

(** C9: for every snapshot with [memory_usage >= 0] the denominator
    [memory_usage + 1e-6] is strictly positive, so the division does not
    raise, and the engineered feature [cpu_memory_ratio] is
    [cpu_usage / (memory_usage + 1e-6)]: in the dict [base] and in every
    slot of the feature vector that the schema gives that name. *)
Theorem cpu_memory_ratio_division_safe (names : list string)
    (metrics : PrometheusMetrics)
    (H : leb zero (memory_usage metrics) = true) :
  let ratio := div (cpu_usage metrics) (add (memory_usage metrics) eps) in
  ltb zero (add (memory_usage metrics) eps) = true
  /\ Py.truediv (cpu_usage metrics) (add (memory_usage metrics) eps) = Ok ratio
  /\ exists base vec,
       base_metrics metrics = Ok base
       /\ lookup "cpu_memory_ratio" base = Some ratio
       /\ build_feature_vector names metrics = Ok vec
       /\ forall i, nth_error names i = Some "cpu_memory_ratio" ->
                    nth_error vec i = Some ratio.
Proof.
  intros ratio. destruct (add_eps_positive _ H) as [Hpos Hz].
  split; [exact Hpos|]. split; [unfold Py.truediv; now rewrite Hz|].
  destruct (base_metrics_ok metrics Hz) as (base & Hb & _ & _ & Hr).
  destruct (build_feature_vector_entries names metrics base Hb) as (vec & E & _ & N).
  exists base, vec. split; [exact Hb|]. split; [exact Hr|]. split; [exact E|].
  intros i Hi. rewrite (N i _ Hi), Hr. reflexivity.
Qed.

Lemma cpu_memory_ratio_division_safe_witness :
  leb zero Fixture.f512 = true
  /\ ltb zero (add Fixture.f512 eps) = true
  /\ exists vec,
       build_feature_vector ["cpu_usage"; "cpu_memory_ratio"]
         (snapshot Fixture.env_cpu_mem Fixture.not_loaded) = Ok vec
       /\ nth_error vec 1 = Some (div Fixture.f40 (add Fixture.f512 eps)).
Proof.
  assert (H : leb zero (memory_usage (snapshot Fixture.env_cpu_mem Fixture.not_loaded))
              = true) by (vm_compute; reflexivity).
  pose proof (cpu_memory_ratio_division_safe ["cpu_usage"; "cpu_memory_ratio"]
                (snapshot Fixture.env_cpu_mem Fixture.not_loaded) H) as T.
  cbv zeta in T. destruct T as (P & _ & base & vec & _ & _ & E & N).
  split; [vm_compute; reflexivity|]. split; [exact P|].
  exists vec. split; [exact E|]. exact (N 1%nat eq_refl).
Defined.

(** ** What a query leaves in the log *)

Lemma read_response_answers (env : Env) (o : http_outcome) (x : float) :
  answers env o x ->
  PrometheusClient.read_response (float_of_str env) o = Ok (Some x).
Proof.
  intros H. destruct H as [top dat first rest ts v more x Hs Hd Hr Hv Hx].
  unfold PrometheusClient.read_response, Py.get, Py.getitem, rbind.
  rewrite Hs. cbn [Py.eq_str]. rewrite String.eqb_refl, Hd, Hr.
  cbn [Py.truthy Py.getindex nth_error]. rewrite Hv. cbn [Py.getindex nth_error].
  now rewrite Hx.
Qed.

Lemma read_response_fails (env : Env) (o : http_outcome) :
  query_fails env o ->
  exists ex, PrometheusClient.read_response (float_of_str env) o = Raise ex.
Proof.
  intros H. destruct H as [why|code| |data e E]; eexists; try reflexivity. exact E.
Qed.

(** X1: [query_metric] sends one request and logs an error exactly when
    the query failed; a response without data, like a good sample, leaves
    no log entry, so the 0.0 it yields is silent.  Counter, gauges and
    globals are never touched. *)
Theorem query_metric_logs_failures_only (env : Env) (query : string) (st : State) :
  let o := prometheus env (now st) query in
  let st' := snd (PrometheusClient.query_metric env query st) in
  (query_fails env o ->
   exists ex, trace st' = EvLogError (PrometheusQueryFailed query ex)
                            :: EvQuery query :: trace st)
  /\ (no_data o -> trace st' = EvQuery query :: trace st)
  /\ (forall v, answers env o v -> trace st' = EvQuery query :: trace st)
  /\ same_registry st st' /\ same_globals st st'.
Proof.
  cbv zeta. rewrite query_metric_run. cbn [snd]. unfold after_query, query_events.
  split; [|split; [|split]].
  - intros H. destruct (read_response_fails env _ H) as (ex & ->).
    exists ex. reflexivity.
  - intros H. now rewrite (read_response_no_data env _ H).
  - intros v H. now rewrite (read_response_answers env _ v H).
  - apply push_same_registry.
Qed.

Lemma query_metric_logs_failures_only_witness :
  trace (snd (PrometheusClient.query_metric Fixture.env_down "up" Fixture.not_loaded))
  = [EvLogError (PrometheusQueryFailed "up" (RequestError "connection refused"));
     EvQuery "up"]
  /\ trace (snd (PrometheusClient.query_metric Fixture.env_error "up" Fixture.not_loaded))
     = [EvQuery "up"].
Proof.
  split.
  - destruct (proj1 (query_metric_logs_failures_only Fixture.env_down "up"
                       Fixture.not_loaded) (fails_unreachable _ _)) as (ex & E).
    rewrite E. vm_compute in E. injection E as <-. reflexivity.
  - apply (proj1 (proj2 (query_metric_logs_failures_only Fixture.env_error "up"
                           Fixture.not_loaded))).
    apply no_data_status. intros s E. injection E as <-. reflexivity.
Defined.

(** ** What an acquisition sends *)

Lemma queries_sent_app (evs1 evs2 : list event) :
  queries_sent (evs1 ++ evs2) = (queries_sent evs2 ++ queries_sent evs1)%list.
Proof. unfold queries_sent. now rewrite rev_app_distr, flat_map_app. Qed.

Lemma after_queries_sent (env : Env) (qs : list string) (st : State) :
  exists evs, after_queries env qs st = push evs st
              /\ queries_sent evs = qs
              /\ (List.length (filter is_error_log evs) <= List.length qs)%nat
              /\ filter is_utcnow evs = [].
Proof.
  revert st; induction qs as [|q rest IH]; intros st; cbn [after_queries].
  - exists []. rewrite push_nil. repeat split. cbn. lia.
  - destruct (IH (after_query env q st)) as (evs & E & Q & L & U).
    exists (evs ++ query_events env q st)%list. unfold after_query in *.
    rewrite E, push_push. split; [reflexivity|].
    rewrite queries_sent_app, Q, !filter_app, U, length_app. unfold query_events.
    destruct (PrometheusClient.read_response _ _); cbn; repeat split; lia.
Qed.

(** X2: whatever the store answers, one acquisition sends exactly the six
    queries of the table, once each and in the table's order (no retry, no
    early exit), logs at most one error per query and reads no clock; it
    writes nothing but the trace. *)
Theorem get_workload_metrics_sends_six_queries (env : Env) (st : State) :
  exists evs,
    snd (PrometheusClient.get_workload_metrics env st) = push evs st
    /\ queries_sent evs
       = [query_named env "cpu_usage"; query_named env "memory_usage";
          query_named env "request_rate"; query_named env "queue_length";
          query_named env "response_time"; query_named env "active_connections"]
    /\ (List.length (filter is_error_log evs) <= 6)%nat
    /\ filter is_predict evs = []
    /\ filter is_utcnow evs = [].
Proof.
  rewrite get_workload_metrics_run. cbn [snd]. unfold after_acquisition.
  destruct (after_queries_sent env (query_strings env) st) as (evs & E & Q & L & U).
  destruct (after_queries_push env (query_strings env) st) as (evs' & E' & _ & P & _).
  assert (evs' = evs).
  { rewrite E in E'. apply (f_equal trace) in E'. cbn [push trace] in E'.
    now apply app_inv_tail in E'. }
  subst evs'. exists evs. split; [exact E|]. split; [exact Q|].
  split; [exact L|]. split; [exact P|exact U].
Qed.

Lemma readings_all_fail (env : Env) (qs : list string) (st : State) :
  (forall t q, query_fails env (prometheus env t q)) ->
  readings env qs st = repeat zero (List.length qs)
  /\ exists evs, after_queries env qs st = push evs st
                 /\ List.length (filter is_error_log evs) = List.length qs.
Proof.
  intros H. revert st. induction qs as [|q rest IH]; intros st; cbn [readings after_queries].
  - split; [reflexivity|]. exists []. now rewrite push_nil.
  - destruct (IH (after_query env q st)) as (R & evs & E & L).
    rewrite (metric_of_fails env _ (H (now st) q)), R. split; [reflexivity|].
    exists (evs ++ query_events env q st)%list. unfold after_query in *.
    rewrite E, push_push. split; [reflexivity|].
    rewrite filter_app, length_app, L. unfold query_events.
    destruct (read_response_fails env _ (H (now st) q)) as (ex & ->).
    cbn. lia.
Qed.

(** X3: when every query fails (the store is unreachable), acquisition
    still returns, with a snapshot whose six readings are all 0.0, and has
    logged six errors, one per query. *)
Theorem get_workload_metrics_all_fail (env : Env) (st : State)
    (H : forall t q, query_fails env (prometheus env t q)) :
  exists st',
    PrometheusClient.get_workload_metrics env st
    = (Ok {| cpu_usage := zero; memory_usage := zero; request_rate := zero;
             queue_length := zero; response_time := zero;
             active_connections := zero |}, st')
    /\ count_events is_error_log st' = (6 + count_events is_error_log st)%nat
    /\ count_events is_query st' = (6 + count_events is_query st)%nat.
Proof.
  rewrite get_workload_metrics_run. exists (after_acquisition env st).
  destruct (readings_all_fail env (query_strings env) st H) as (R & evs & E & L).
  unfold snapshot. rewrite R. split; [reflexivity|].
  destruct (after_acquisition_push env st) as (evs' & E' & Q & _).
  unfold after_acquisition in *. rewrite E in E'.
  assert (evs' = evs).
  { apply (f_equal trace) in E'. cbn [push trace] in E'.
    symmetry. now apply app_inv_tail in E'. }
  subst evs'. rewrite E, !count_events_push, L, Q. split; reflexivity.
Qed.

Lemma get_workload_metrics_all_fail_witness :
  exists st',
    PrometheusClient.get_workload_metrics Fixture.env_down Fixture.not_loaded
    = (Ok {| cpu_usage := zero; memory_usage := zero; request_rate := zero;
             queue_length := zero; response_time := zero;
             active_connections := zero |}, st')
    /\ count_events is_error_log st' = 6%nat.
Proof.
  destruct (get_workload_metrics_all_fail Fixture.env_down Fixture.not_loaded
              (fun t q => fails_unreachable Fixture.env_down "connection refused"))
    as (st' & E & L & _).
  exists st'. split; [exact E|exact L].
Defined.

(** ** The aligner as a map *)

Lemma build_feature_vector_map (names : list string) (metrics : PrometheusMetrics)
    (base : list (string * float)) :
  base_metrics metrics = Ok base ->
  build_feature_vector names metrics = Ok (map (feature_value base) names).
Proof.
  intros Hb.
  destruct (build_feature_vector_entries names metrics base Hb) as (vec & E & L & N).
  rewrite E. f_equal. apply nth_error_ext. intros i.
  rewrite nth_error_map.
  destruct (nth_error names i) as [name|] eqn:Hi.
  - rewrite (N i name Hi). reflexivity.
  - apply nth_error_None. rewrite L. now apply nth_error_None.
Qed.

(** X4: on a snapshot whose [memory_usage + 1e-6] is not zero, the loop of
    [build_feature_vector] computes a map: each slot depends on its own
    name only.  Hence the empty schema gives the empty vector, a
    concatenated schema gives the concatenated vectors, a repeated name is
    filled alike at each place, and [network_total] is filled with
    [request_rate]. *)
Theorem build_feature_vector_pointwise (metrics : PrometheusMetrics)
    (Hz : is_zero (add (memory_usage metrics) eps) = false) :
  exists base,
    base_metrics metrics = Ok base
    /\ (forall names,
          build_feature_vector names metrics = Ok (map (feature_value base) names))
    /\ build_feature_vector [] metrics = Ok []
    /\ (forall names1 names2 vec1 vec2,
          build_feature_vector names1 metrics = Ok vec1 ->
          build_feature_vector names2 metrics = Ok vec2 ->
          build_feature_vector (names1 ++ names2) metrics = Ok (vec1 ++ vec2)%list)
    /\ (forall names i j name vec,
          build_feature_vector names metrics = Ok vec ->
          nth_error names i = Some name -> nth_error names j = Some name ->
          nth_error vec i = nth_error vec j)
    /\ feature_value base "network_total" = request_rate metrics.
Proof.
  destruct (base_metrics_ok metrics Hz) as (base & Hb & _ & _ & _).
  pose proof (fun names => build_feature_vector_map names metrics base Hb) as M.
  exists base. split; [exact Hb|]. split; [exact M|]. split; [apply (M [])|].
  split; [|split].
  - intros n1 n2 v1 v2 H1 H2. rewrite M in H1, H2 |- *.
    injection H1 as <-. injection H2 as <-. now rewrite map_app.
  - intros names i j name vec H Hi Hj. rewrite M in H. injection H as <-.
    now rewrite !nth_error_map, Hi, Hj.
  - revert Hb. unfold base_metrics, Py.truediv. rewrite Hz. cbn [rbind].
    intros Hb'. injection Hb' as <-. reflexivity.
Qed.

Lemma build_feature_vector_pointwise_witness :
  build_feature_vector ["network_total"; "cpu_usage"; "network_total"]
    (snapshot Fixture.env_drifting Fixture.not_loaded)
  = Ok [Fixture.f5; Fixture.f40; Fixture.f5].
Proof.
  assert (Hz : is_zero (add (memory_usage (snapshot Fixture.env_drifting
                                             Fixture.not_loaded)) eps) = false)
    by (vm_compute; reflexivity).
  destruct (build_feature_vector_pointwise _ Hz) as (base & Hb & M & _).
  rewrite M. revert Hb. unfold base_metrics, Py.truediv. rewrite Hz. cbn [rbind].
  intros Hb. injection Hb as <-. vm_compute. reflexivity.
Defined.

(** X5: [build_feature_vector] raises exactly when [memory_usage + 1e-6]
    is zero, whatever the schema (be it empty, or without the ratio), and
    then it is a [ZeroDivisionError]; it raises nothing else. *)
Theorem build_feature_vector_fails_iff (names : list string)
    (metrics : PrometheusMetrics) :
  (is_zero (add (memory_usage metrics) eps) = true
   <-> build_feature_vector names metrics
       = Raise (ZeroDivisionError "float division by zero"))
  /\ (forall e, build_feature_vector names metrics = Raise e ->
                e = ZeroDivisionError "float division by zero"
                /\ is_zero (add (memory_usage metrics) eps) = true).
Proof.
  destruct (is_zero (add (memory_usage metrics) eps)) eqn:Hz.
  - assert (E : build_feature_vector names metrics
                = Raise (ZeroDivisionError "float division by zero")).
    { unfold build_feature_vector, base_metrics, Py.truediv. now rewrite Hz. }
    split; [split; auto|]. intros e He. rewrite E in He. injection He as <-. auto.
  - destruct (base_metrics_ok metrics Hz) as (base & Hb & _).
    rewrite (build_feature_vector_map names metrics base Hb).
    split; [split; discriminate|]. discriminate.
Qed.

(** ** Without a model *)

(** X6: with no model loaded, or an empty list of feature names, the
    prediction endpoint answers 503 before doing anything: the state is
    left as it was, no query is sent.  [keda_metric] then answers 1 having
    only logged the failure and read the clock. *)
Theorem predict_without_model (env : Env) (st : State)
    (H : model st = None \/ expected_feature_names st = []) :
  predict_from_prometheus env st
  = (Raise (HTTPException 503 "Model not loaded or feature names unavailable"), st)
  /\ keda_metric env st
     = (Ok {| metric_value := 1;
              keda_timestamp := utcnow_isoformat env (S (now st)) |},
        push [EvUtcnow;
              EvLogError (KedaMetricFailed "Model not loaded or feature names unavailable")]
          st).
Proof.
  assert (E : predict_from_prometheus env st
              = (Raise (HTTPException 503 "Model not loaded or feature names unavailable"),
                 st)).
  { rewrite predict_from_prometheus_run. unfold predict_run.
    destruct H as [-> | ->]; [reflexivity|]. destruct (model st); reflexivity. }
  split; [exact E|]. rewrite keda_metric_run, E. reflexivity.
Qed.

Lemma predict_without_model_witness :
  fst (keda_metric Fixture.env_down Fixture.not_loaded)
  = Ok {| metric_value := 1; keda_timestamp := Fixture.clock 1 |}
  /\ count_events is_query (snd (keda_metric Fixture.env_down Fixture.not_loaded)) = 0%nat.
Proof.
  destruct (predict_without_model Fixture.env_down Fixture.not_loaded
              (or_introl eq_refl)) as [_ K].
  rewrite K. split; reflexivity.
Defined.

(** X7: with no model loaded the background loop only sleeps: after any
    number of turns the trace has gained that many sleeps of 30 and
    nothing else, no query was sent, and the rest of the state is as it
    was. *)
Theorem runner_without_model_only_sleeps (env : Env) (fuel : nat) (st : State)
    (H : model st = None) :
  _runner fuel env st = (Ok tt, push (repeat (EvSleep 30) fuel) st).
Proof.
  revert st H. induction fuel as [|n IH]; intros st H; cbn [_runner repeat].
  - now rewrite push_nil.
  - unfold bind at 1.
    destruct (runner_iteration_run env st) as (st1 & E1 & _ & _ & N1 & _).
    rewrite E1, (N1 H), IH by exact H. rewrite push_push.
    do 2 f_equal. clear. induction n as [|n IHn]; [reflexivity|].
    cbn [repeat app]. now rewrite IHn.
Qed.

Lemma runner_without_model_only_sleeps_witness :
  trace (snd (_runner 3 Fixture.env_down Fixture.not_loaded))
  = [EvSleep 30; EvSleep 30; EvSleep 30].
Proof.
  rewrite (runner_without_model_only_sleeps Fixture.env_down 3 Fixture.not_loaded eq_refl).
  reflexivity.
Defined.

(** ** With a model *)

Lemma runner_iteration_accounts (env : Env) (st st' : State) :
  model st <> None ->
  runner_iteration env st = (Ok tt, st') ->
  (S (prediction_counter st + count_events is_background_error st)
   <= prediction_counter st' + count_events is_background_error st'
   <= S (S (prediction_counter st + count_events is_background_error st)))%nat
  /\ (prediction_counter st <= prediction_counter st' <= S (prediction_counter st))%nat
  /\ (count_events is_background_error st
      <= count_events is_background_error st'
      <= S (count_events is_background_error st))%nat
  /\ model st' = model st
  /\ ((forall mdl, model st = Some mdl -> gauge_accepts mdl) ->
      (prediction_counter st' + count_events is_background_error st'
       = S (prediction_counter st + count_events is_background_error st))%nat).
Proof.
  intros Hm. unfold runner_iteration.
  unfold bind at 1, try_except at 1, bind at 1, gets at 1.
  destruct (model st) as [mdl|] eqn:Em; [clear Hm|contradiction].
  unfold bind at 1.
  destruct (predict_from_prometheus env st) as [[p|e] st1] eqn:Hp.
  - destruct (predict_trace env st _ st1 Hp) as (evs & Et & _ & B & G & _).
    destruct (predict_ok_effects env st p st1 Hp) as (_ & _ & C & _).
    intros H.
    assert (E : st' = push [EvSleep 30] st1)
      by (cbn [ret sleep emit] in H; injection H as <-; reflexivity).
    subst st'. rewrite count_events_push. cbn [push prediction_counter model].
    unfold count_events. rewrite Et, filter_app, length_app, B.
    cbn [filter is_background_error List.length]. rewrite C, G.
    repeat split; try lia; try exact Em; intros _; lia.
  - intros H.
    assert (E : st' = push [EvSleep 30; EvLogError (BackgroundPredictionError e)] st1)
      by (cbn [Exception logger_error sleep emit] in H; injection H as <-; reflexivity).
    subst st'. clear H.
    destruct (predict_raise_inv env st e st1 Hp)
      as (evs & _ & B & [-> | [-> (mdl' & x & raw & pods & Hm' & Hx & Hr & Hv)]]).
    + rewrite !count_events_push, B. cbn [push prediction_counter model].
      cbn [filter is_background_error List.length].
      repeat split; try lia; try exact Em; intros _; lia.
    + change (count_events is_background_error
                (push [EvSleep 30; EvLogError (BackgroundPredictionError e)]
                   (counted (push evs st))))
        with (count_events is_background_error
                (push [EvSleep 30; EvLogError (BackgroundPredictionError e)]
                   (push evs st))).
      rewrite !count_events_push, B. cbn [push counted prediction_counter model].
      cbn [filter is_background_error List.length].
      repeat split; try lia; try exact Em.
      intros A. exfalso. rewrite Em in Hm'. injection Hm' as <-.
      destruct (A mdl eq_refl x raw pods Hx Hr) as (value & Ev).
      rewrite Ev in Hv. discriminate.
Qed.

(** A turn can both count a served prediction and log an error: a
    predictor that answers an int beyond the range of a float makes the
    turn count the prediction, then raise at the gauge and log the
    error. *)
Lemma runner_counts_and_logs_on_overflow :
  let st' := snd (_runner 1 Fixture.env_cpu_mem
                    (Fixture.loaded (Fixture.model_const (NInt (2 ^ 1024)))
                       Fixture.schema3)) in
  prediction_counter st' = 1%nat
  /\ count_events is_background_error st' = 1%nat
  /\ prediction_gauge st' = zero.
Proof. vm_compute. repeat split. Qed.

(** X8: with a model loaded, every turn of the background loop counts a
    served prediction or logs a background error, never neither: after
    [fuel] turns the two counts have grown by at least [fuel] together and
    by at most [fuel] each.  When the gauge takes every count the model can
    lead to, no turn does both, and the two counts have grown by exactly
    [fuel] together.  The counter never goes down, and the model stays
    loaded. *)
Theorem runner_publishes_or_logs (env : Env) (fuel : nat) (st st' : State)
    (Hm : model st <> None)
    (H : _runner fuel env st = (Ok tt, st')) :
  (fuel + (prediction_counter st + count_events is_background_error st)
   <= prediction_counter st' + count_events is_background_error st'
   <= 2 * fuel + (prediction_counter st + count_events is_background_error st))%nat
  /\ (prediction_counter st <= prediction_counter st' <= prediction_counter st + fuel)%nat
  /\ (count_events is_background_error st
      <= count_events is_background_error st'
      <= count_events is_background_error st + fuel)%nat
  /\ model st' = model st
  /\ ((forall mdl, model st = Some mdl -> gauge_accepts mdl) ->
      (prediction_counter st' + count_events is_background_error st'
       = fuel + (prediction_counter st + count_events is_background_error st))%nat).
Proof.
  revert st Hm H. induction fuel as [|n IH]; intros st Hm H; cbn [_runner] in H.
  - injection H as <-. repeat split; lia.
  - unfold bind at 1 in H.
    destruct (runner_iteration_run env st) as (st1 & E1 & _).
    rewrite E1 in H.
    destruct (runner_iteration_accounts env st st1 Hm E1) as (A1 & M1 & B1 & G1 & X1).
    assert (Hm1 : model st1 <> None) by (rewrite G1; exact Hm).
    destruct (IH st1 Hm1 H) as (A & M & B & G & X).
    repeat split; try lia; try congruence.
    intros Acc. specialize (X1 Acc).
    rewrite X by (intros mdl Em; apply Acc; congruence). lia.
Qed.

Lemma runner_publishes_or_logs_witness :
  prediction_counter
    (snd (_runner 4 Fixture.env_cpu_mem (Fixture.loaded Fixture.model_first Fixture.schema3)))
  = 4%nat
  /\ (let st' := snd (_runner 3 Fixture.env_down
                        (Fixture.loaded (Fixture.model_const (NInt 5)) Fixture.schema3)) in
      (prediction_counter st' + count_events is_background_error st' = 3)%nat).
Proof.
  split.
  - assert (E : _runner 4 Fixture.env_cpu_mem
                  (Fixture.loaded Fixture.model_first Fixture.schema3)
                = (Ok tt, snd (_runner 4 Fixture.env_cpu_mem
                                 (Fixture.loaded Fixture.model_first Fixture.schema3))))
      by (vm_compute; reflexivity).
    assert (B : count_events is_background_error
                  (snd (_runner 4 Fixture.env_cpu_mem
                          (Fixture.loaded Fixture.model_first Fixture.schema3))) = 0%nat)
      by (vm_compute; reflexivity).
    assert (Hm : model (Fixture.loaded Fixture.model_first Fixture.schema3) <> None)
      by discriminate.
    destruct (runner_publishes_or_logs Fixture.env_cpu_mem 4
                (Fixture.loaded Fixture.model_first Fixture.schema3) _ Hm E)
      as (A & M & _ & _ & _).
    rewrite B in A.
    change (prediction_counter (Fixture.loaded Fixture.model_first Fixture.schema3))
      with 0%nat in A, M.
    change (count_events is_background_error
              (Fixture.loaded Fixture.model_first Fixture.schema3)) with 0%nat in A.
    lia.
  - cbv zeta.
    assert (E : _runner 3 Fixture.env_down
                  (Fixture.loaded (Fixture.model_const (NInt 5)) Fixture.schema3)
                = (Ok tt, snd (_runner 3 Fixture.env_down
                                 (Fixture.loaded (Fixture.model_const (NInt 5))
                                    Fixture.schema3))))
      by (vm_compute; reflexivity).
    assert (Hm : model (Fixture.loaded (Fixture.model_const (NInt 5)) Fixture.schema3)
                 <> None) by discriminate.
    destruct (runner_publishes_or_logs Fixture.env_down 3
                (Fixture.loaded (Fixture.model_const (NInt 5)) Fixture.schema3) _ Hm E)
      as (_ & _ & _ & _ & X).
    rewrite X; [reflexivity|].
    intros mdl Em. injection Em as <-.
    intros x raw pods Hp Hr. injection Hp as <-.
    vm_compute in Hr. injection Hr as <-.
    eexists. vm_compute. reflexivity.
Defined.

(** ** The ways out of a prediction *)

Lemma confidence_run_value (mdl : Model) (x : list float) (st : State) :
  fst (confidence_run mdl x st) = best_effort_confidence mdl x.
Proof.
  unfold confidence_run, best_effort_confidence.
  destruct (predict_proba mdl) as [pp|]; [|reflexivity]. cbn [fst].
  destruct (pp x) as [[|c rest]|e]; reflexivity.
Qed.

(** X9: once the model is loaded, the vector aligned, the predictor has
    answered and its answer rounds to a count the gauge takes, the
    prediction succeeds whatever [predict_proba] does: a missing, failing
    or empty [predict_proba] only turns the confidence into 0.95.  The
    response carries the floored count, the snapshot acquired and version
    "1.1.0"; the counter goes up by one, the gauge holds the float of the
    count (the count itself below [2 ^ 53]) and the confidence gauge the
    confidence.  A count beyond the range of a float is refused by the
    gauge: the prediction raises after the counter went up, with both
    gauges as they were. *)
Theorem prediction_succeeds (env : Env) (st : State) (mdl : Model)
    (x : list float) (raw : num) (pods : Z)
    (Hm : model st = Some mdl)
    (Hn : expected_feature_names st <> [])
    (Hx : build_feature_vector (expected_feature_names st) (snapshot env st) = Ok x)
    (Hp : predict mdl x = Ok raw)
    (Hr : replica_count raw = Ok pods) :
  (forall value,
     float_of_int pods = Ok value ->
     exists p st',
       predict_from_prometheus env st = (Ok p, st')
       /\ predicted_pod_count p = pods
       /\ confidence p = best_effort_confidence mdl x
       /\ metrics_used p = snapshot env st
       /\ model_version p = "1.1.0"
       /\ prediction_counter st' = S (prediction_counter st)
       /\ prediction_gauge st' = value
       /\ model_confidence_gauge st' = best_effort_confidence mdl x)
  /\ (pods < 2 ^ 53 ->
      exists value, float_of_int pods = Ok value
                    /\ (to_Q value == inject_Z pods)%Q)
  /\ (forall e,
        float_of_int pods = Raise e ->
        exists st',
          predict_from_prometheus env st = (Raise e, st')
          /\ prediction_counter st' = S (prediction_counter st)
          /\ prediction_gauge st' = prediction_gauge st
          /\ model_confidence_gauge st' = model_confidence_gauge st).
Proof.
  split; [|split].
  - intros value Hv.
    rewrite predict_from_prometheus_run. unfold predict_run. rewrite Hm.
    destruct (expected_feature_names st) as [|n ns] eqn:En; [contradiction|].
    rewrite Hx, Hp.
    pose proof (confidence_run_value mdl x (push [EvPredict x] (after_acquisition env st)))
      as Hc.
    destruct (confidence_run_push mdl x (push [EvPredict x] (after_acquisition env st)))
      as (evc & Ec & _).
    destruct (confidence_run mdl x _) as [conf st3]. cbn [fst snd] in Hc, Ec.
    rewrite Hr, Hv. do 2 eexists. split; [reflexivity|].
    cbn [predicted_pod_count confidence metrics_used model_version].
    subst conf st3.
    destruct (after_acquisition_push env st) as (eva & -> & _).
    repeat split.
  - intros B. pose proof (replica_count_floor raw pods Hr) as F.
    exists (of_Z pods). apply float_of_int_exact. lia.
  - intros e Hv.
    rewrite predict_from_prometheus_run. unfold predict_run. rewrite Hm.
    destruct (expected_feature_names st) as [|n ns] eqn:En; [contradiction|].
    rewrite Hx, Hp.
    destruct (confidence_run_push mdl x (push [EvPredict x] (after_acquisition env st)))
      as (evc & Ec & _).
    destruct (confidence_run mdl x _) as [conf st3]. cbn [snd] in Ec.
    rewrite Hr, Hv. eexists. split; [reflexivity|]. subst st3.
    destruct (after_acquisition_push env st) as (eva & -> & _).
    repeat split.
Qed.

Lemma prediction_succeeds_witness :
  (exists p st',
     predict_from_prometheus Fixture.env_cpu_mem
       (Fixture.loaded ConfidenceFixture.model_proba_broken Fixture.schema3) = (Ok p, st')
     /\ predicted_pod_count p = 3
     /\ confidence p = default_confidence
     /\ prediction_gauge st' = of_Z 3)
  /\ (exists p st',
        predict_from_prometheus Fixture.env_cpu_mem
          (Fixture.loaded ConfidenceFixture.model_proba Fixture.schema3) = (Ok p, st')
        /\ predicted_pod_count p = 3
        /\ confidence p = ConfidenceFixture.three_quarters)
  /\ (exists e st',
        predict_from_prometheus Fixture.env_cpu_mem
          (Fixture.loaded (Fixture.model_const (NInt (2 ^ 1024))) Fixture.schema3)
        = (Raise e, st')
        /\ prediction_counter st' = 1%nat).
Proof.
  split; [|split].
  - destruct (proj1 (prediction_succeeds Fixture.env_cpu_mem
                (Fixture.loaded ConfidenceFixture.model_proba_broken Fixture.schema3)
                ConfidenceFixture.model_proba_broken
                [Fixture.f40; zero; Fixture.f512] (NInt 3) 3
                eq_refl ltac:(discriminate) ltac:(vm_compute; reflexivity)
                eq_refl eq_refl) (of_Z 3) ltac:(vm_compute; reflexivity))
      as (p & st' & E & P & C & _ & _ & _ & G & _).
    exists p, st'. split; [exact E|]. split; [exact P|].
    split; [rewrite C; reflexivity|exact G].
  - destruct (proj1 (prediction_succeeds Fixture.env_cpu_mem
                (Fixture.loaded ConfidenceFixture.model_proba Fixture.schema3)
                ConfidenceFixture.model_proba
                [Fixture.f40; zero; Fixture.f512] (NInt 3) 3
                eq_refl ltac:(discriminate) ltac:(vm_compute; reflexivity)
                eq_refl eq_refl) (of_Z 3) ltac:(vm_compute; reflexivity))
      as (p & st' & E & P & C & _).
    exists p, st'. split; [exact E|]. split; [exact P|]. rewrite C.
    vm_compute. reflexivity.
  - destruct (proj2 (proj2 (prediction_succeeds Fixture.env_cpu_mem
                (Fixture.loaded (Fixture.model_const (NInt (2 ^ 1024))) Fixture.schema3)
                (Fixture.model_const (NInt (2 ^ 1024)))
                [Fixture.f40; zero; Fixture.f512] (NInt (2 ^ 1024)) (2 ^ 1024)
                eq_refl ltac:(discriminate) ltac:(vm_compute; reflexivity)
                eq_refl ltac:(vm_compute; reflexivity)))
                (OverflowError "int too large to convert to float")
                ltac:(vm_compute; reflexivity))
      as (st' & E & C & _).
    exists (OverflowError "int too large to convert to float"), st'.
    split; [exact E|exact C].
Defined.

(** X10: a predictor that answers NaN or an infinity makes [round] raise,
    after the predictor ran and outside the [try] that turns a
    [ValueError] into a 500: the prediction endpoint raises a plain
    [ValueError] or [OverflowError], nothing is published, and
    [keda_metric], which catches [HTTPException] only, raises it too
    instead of answering 1. *)
Theorem non_finite_prediction_escapes (env : Env) (st : State) (mdl : Model)
    (x : list float) (f : float)
    (Hm : model st = Some mdl)
    (Hn : expected_feature_names st <> [])
    (Hx : build_feature_vector (expected_feature_names st) (snapshot env st) = Ok x)
    (Hp : predict mdl x = Ok (NFloat f))
    (Hf : is_finite f = false) :
  exists e st1,
    predict_from_prometheus env st = (Raise e, st1)
    /\ e = (if is_nan f
            then ValueError "cannot convert float NaN to integer"
            else OverflowError "cannot convert float infinity to integer")
    /\ keda_metric env st = (Raise e, st1)
    /\ count_events is_predict st1 = S (count_events is_predict st)
    /\ same_registry st st1.
Proof.
  assert (Hr : replica_count (NFloat f)
               = Raise (if is_nan f
                        then ValueError "cannot convert float NaN to integer"
                        else OverflowError "cannot convert float infinity to integer")).
  { destruct f; try discriminate Hf; reflexivity. }
  destruct (predict_from_prometheus env st) as [r st1] eqn:E.
  pose proof E as E'. rewrite predict_from_prometheus_run in E'. unfold predict_run in E'.
  rewrite Hm in E'.
  destruct (expected_feature_names st) as [|n ns] eqn:En; [contradiction|].
  rewrite Hx, Hp in E'.
  destruct (confidence_run_push mdl x (push [EvPredict x] (after_acquisition env st)))
    as (evc & Ec & _ & Pc & _).
  destruct (confidence_run mdl x _) as [conf st3]. cbn [snd] in Ec.
  rewrite Hr in E'. injection E' as <- <-.
  do 2 eexists. split; [reflexivity|]. split; [reflexivity|].
  split; [rewrite keda_metric_run, E; destruct (is_nan f); reflexivity|].
  rewrite Ec. destruct (after_acquisition_push env st) as (eva & -> & _ & Pa & _).
  rewrite !push_push, count_events_push, !filter_app, Pc, Pa.
  split; [reflexivity|apply push_same_registry].
Qed.

Lemma non_finite_prediction_escapes_witness :
  fst (keda_metric Fixture.env_cpu_mem
         (Fixture.loaded (Fixture.model_const (NFloat S754_nan)) Fixture.schema3))
  = Raise (ValueError "cannot convert float NaN to integer").
Proof.
  destruct (non_finite_prediction_escapes Fixture.env_cpu_mem
              (Fixture.loaded (Fixture.model_const (NFloat S754_nan)) Fixture.schema3)
              (Fixture.model_const (NFloat S754_nan))
              [Fixture.f40; zero; Fixture.f512] S754_nan
              eq_refl ltac:(discriminate) ltac:(vm_compute; reflexivity)
              eq_refl eq_refl)
    as (e & st1 & _ & -> & K & _).
  rewrite K. reflexivity.
Defined.

(** X11: an exception of the predictor that is not a [ValueError] is not
    wrapped: the prediction endpoint raises it as it is, with nothing
    published, and unless it is an [HTTPException], [keda_metric] raises
    it as well. *)
Theorem predictor_error_escapes (env : Env) (st : State) (mdl : Model)
    (x : list float) (e : exn)
    (Hm : model st = Some mdl)
    (Hn : expected_feature_names st <> [])
    (Hx : build_feature_vector (expected_feature_names st) (snapshot env st) = Ok x)
    (Hp : predict mdl x = Raise e)
    (Hv : is_ValueError e = false) :
  let st1 := push [EvPredict x] (after_acquisition env st) in
  predict_from_prometheus env st = (Raise e, st1)
  /\ same_registry st st1
  /\ (is_HTTPException e = false -> keda_metric env st = (Raise e, st1)).
Proof.
  intros st1.
  assert (E : predict_from_prometheus env st = (Raise e, st1)).
  { rewrite predict_from_prometheus_run. unfold predict_run. rewrite Hm.
    destruct (expected_feature_names st) as [|n ns]; [contradiction|].
    now rewrite Hx, Hp, Hv. }
  split; [exact E|]. split.
  - subst st1. destruct (after_acquisition_push env st) as (eva & -> & _).
    rewrite push_push. apply push_same_registry.
  - intros Hh. rewrite keda_metric_run, E. destruct e; try reflexivity. discriminate.
Qed.

Lemma predictor_error_escapes_witness :
  fst (keda_metric Fixture.env_cpu_mem
         (Fixture.loaded Fixture.model_broken Fixture.schema3))
  = Raise (RuntimeError "worker pool is shut down").
Proof.
  destruct (predictor_error_escapes Fixture.env_cpu_mem
              (Fixture.loaded Fixture.model_broken Fixture.schema3)
              Fixture.model_broken [Fixture.f40; zero; Fixture.f512]
              (RuntimeError "worker pool is shut down")
              eq_refl ltac:(discriminate) ltac:(vm_compute; reflexivity)
              eq_refl eq_refl)
    as (_ & _ & K).
  rewrite (K eq_refl). reflexivity.
Defined.

(** X12: when the memory reading makes [memory_usage + 1e-6] zero, the
    prediction endpoint raises [ZeroDivisionError] after the six queries
    and before the predictor is called; nothing is published, and
    [keda_metric] raises it too. *)
Theorem zero_denominator_stops_prediction (env : Env) (st : State)
    (Hm : model st <> None)
    (Hn : expected_feature_names st <> [])
    (Hz : is_zero (add (memory_usage (snapshot env st)) eps) = true) :
  let e := ZeroDivisionError "float division by zero" in
  let st1 := after_acquisition env st in
  predict_from_prometheus env st = (Raise e, st1)
  /\ keda_metric env st = (Raise e, st1)
  /\ count_events is_predict st1 = count_events is_predict st
  /\ count_events is_query st1 = (6 + count_events is_query st)%nat
  /\ same_registry st st1.
Proof.
  intros e st1.
  assert (E : predict_from_prometheus env st = (Raise e, st1)).
  { rewrite predict_from_prometheus_run. unfold predict_run.
    destruct (model st) as [mdl|]; [|contradiction].
    destruct (expected_feature_names st) as [|n ns]; [contradiction|].
    unfold build_feature_vector, base_metrics, Py.truediv. now rewrite Hz. }
  split; [exact E|]. split; [rewrite keda_metric_run, E; reflexivity|].
  subst st1. destruct (after_acquisition_push env st) as (eva & -> & Q & P & _).
  rewrite !count_events_push, P, Q. repeat split.
Qed.

Lemma zero_denominator_stops_prediction_witness :
  fst (keda_metric Fixture.env_minus_eps
         (Fixture.loaded Fixture.model_first Fixture.schema3))
  = Raise (ZeroDivisionError "float division by zero").
Proof.
  destruct (zero_denominator_stops_prediction Fixture.env_minus_eps
              (Fixture.loaded Fixture.model_first Fixture.schema3)
              ltac:(discriminate) ltac:(discriminate) ltac:(vm_compute; reflexivity))
    as (_ & K & _).
  rewrite K. reflexivity.
Defined.

(** ** The health and metrics endpoints *)


(** A loaded model whose truth value is false (an estimator with a
    [__len__] of 0, say) is reported loaded and unhealthy; one whose truth
    value raises takes the health endpoint down with it. *)
Example health_check_falsy_model :
  fst (health_check Fixture.env_cpu_mem
         (Fixture.loaded {| predict := fun _ => Ok (NInt 3);
                            predict_proba := None;
                            truth := Ok false |} Fixture.schema3))
  = Ok {| status := "unhealthy";
          model_loaded := true;
          prometheus_connected := true;
          expected_features := 3;
          health_timestamp := Fixture.clock 1 |}
  /\ fst (health_check Fixture.env_cpu_mem
            (Fixture.loaded {| predict := fun _ => Ok (NInt 3);
                               predict_proba := None;
                               truth := Raise (TypeError "no truth value") |}
               Fixture.schema3))
     = Raise (TypeError "no truth value").
Proof. split; vm_compute; reflexivity. Qed.

(** X14: [current_metrics] needs no model and never raises; it returns
    the snapshot that a prediction started in the same state would use,
    with the time read after the six queries, and touches neither counter
    nor gauges. *)
Theorem current_metrics_serves_snapshot (env : Env) (st : State) :
  current_metrics env st
  = (Ok (snapshot env st, utcnow_isoformat env (now (after_acquisition env st))),
     push [EvUtcnow] (after_acquisition env st))
  /\ same_registry st (push [EvUtcnow] (after_acquisition env st))
  /\ (forall p st2, predict_from_prometheus env st = (Ok p, st2) ->
                    metrics_used p = snapshot env st).
Proof.
  split; [|split].
  - unfold current_metrics. unfold bind at 1. rewrite get_workload_metrics_run.
    reflexivity.
  - destruct (after_acquisition_push env st) as (eva & -> & _).
    rewrite push_push. apply push_same_registry.
  - intros p st2 H.
    destruct (predict_ok_inv env st p st2 H)
      as (mdl & x & raw & st3 & _ & _ & _ & _ & _ & M & _).
    exact M.
Qed.

(** ** Startup *)

Lemma truthy_len_pos (v : json) (n : nat) :
  Py.truthy v = true -> py_len v = Ok n -> (0 < n)%nat.
Proof.
  destruct v as [| | | |s|items|items]; try discriminate; cbn [Py.truthy py_len];
    intros T L; injection L as <-.
  - destruct s; [discriminate|cbn; lia].
  - destruct items; [discriminate|cbn; lia].
  - destruct items; [discriminate|cbn; lia].
Qed.

Lemma load_ok_model (disk : Disk) (names0 : json) :
  let r := load_model_and_features disk names0 in
  (load_ok r = true ->
   exists art n, load_model r = Some (estimator art)
                 /\ py_len (load_names r) = Ok n /\ (0 < n)%nat)
  /\ (load_ok r = false -> load_model r = None).
Proof.
  cbv zeta. unfold load_model_and_features.
  destruct (joblib_load disk (MODEL_PATH disk)) as [art|ex0];
    [|split; [discriminate|reflexivity]].
  destruct (_load_feature_names_from_metadata disk (MODEL_METADATA_PATH disk))
    as [names1 log1].
  set (step2 := if negb (Py.truthy names1) then _ else _).
  destruct step2 as [names2 log2].
  destruct (Py.truthy names2) eqn:T; cbn [negb];
    [|split; [discriminate|reflexivity]].
  destruct (py_len names2) as [n|ex] eqn:L; [|split; [discriminate|reflexivity]].
  split; [|discriminate]. intros _. exists art, n.
  split; [reflexivity|]. split; [exact L|exact (truthy_len_pos names2 n T L)].
Qed.

(** X15: [load_model_and_features] returns [True] exactly when it leaves a
    model in place; then the feature names are non-empty and the last
    thing logged is their number.  When it returns [False] the model is
    [None] and the last thing logged is the error; if it is [joblib.load]
    that failed, the feature names are those from before the call. *)
Theorem load_model_and_features_outcome (disk : Disk) (names0 : json) :
  let r := load_model_and_features disk names0 in
  (load_ok r = true <-> load_model r <> None)
  /\ (load_ok r = true ->
      exists art n,
        joblib_load disk (MODEL_PATH disk) = Ok art
        /\ load_model r = Some (estimator art)
        /\ Py.truthy (load_names r) = true
        /\ py_len (load_names r) = Ok n /\ (0 < n)%nat
        /\ last (load_log r) (LogInfo (ModelExpects 0)) = LogInfo (ModelExpects n))
  /\ (load_ok r = false ->
      load_model r = None
      /\ exists ex, last (load_log r) (LogInfo (ModelExpects 0))
                    = LogError (FailedToLoadModel ex))
  /\ (forall ex, joblib_load disk (MODEL_PATH disk) = Raise ex ->
                 load_ok r = false /\ load_names r = names0
                 /\ load_log r = [LogError (FailedToLoadModel ex)]).
Proof.
  cbv zeta. unfold load_model_and_features.
  destruct (joblib_load disk (MODEL_PATH disk)) as [art|ex0].
  - destruct (_load_feature_names_from_metadata disk (MODEL_METADATA_PATH disk))
      as [names1 log1].
    set (step2 := if negb (Py.truthy names1) then _ else _).
    destruct step2 as [names2 log2].
    destruct (Py.truthy names2) eqn:T; cbn [negb].
    + destruct (py_len names2) as [n|ex] eqn:L;
        cbn [load_ok load_model load_names load_log].
      * split; [split; [discriminate|reflexivity]|].
        split; [|split; [discriminate|discriminate]].
        intros _. exists art, n. repeat split; try assumption.
        -- exact (truthy_len_pos names2 n T L).
        -- now rewrite last_last.
      * split; [split; [discriminate|contradiction]|].
        split; [discriminate|]. split; [|discriminate].
        intros _. split; [reflexivity|]. exists ex. now rewrite last_last.
    + cbn [load_ok load_model load_names load_log].
      split; [split; [discriminate|contradiction]|].
      split; [discriminate|]. split; [|discriminate].
      intros _. split; [reflexivity|]. eexists. now rewrite last_last.
  - cbn [load_ok load_model load_names load_log].
    split; [split; [discriminate|contradiction]|].
    split; [discriminate|]. split.
    + intros _. split; [reflexivity|]. exists ex0. reflexivity.
    + intros ex H. injection H as <-. repeat split.
Qed.

Lemma strings_of_map_JStr (l : list string) : strings_of (map JStr l) = Some l.
Proof. induction l as [|a l IH]; cbn; [reflexivity|now rewrite IH]. Qed.

Lemma strings_of_length (items : list json) (l : list string) :
  strings_of items = Some l -> List.length l = List.length items.
Proof.
  revert l. induction items as [|a items IH]; intros l; cbn.
  - intros H. injection H as <-. reflexivity.
  - destruct a; try discriminate. destruct (strings_of items) as [l'|]; [|discriminate].
    intros H. injection H as <-. cbn. now rewrite (IH l' eq_refl).
Qed.

Lemma startup_keeps_globals (disk : Disk) (names0 : json) :
  load_ok (_startup disk names0) = load_ok (load_model_and_features disk names0)
  /\ load_model (_startup disk names0) = load_model (load_model_and_features disk names0)
  /\ load_names (_startup disk names0) = load_names (load_model_and_features disk names0).
Proof.
  unfold _startup. destruct (load_ok (load_model_and_features disk names0)) eqn:E;
    repeat split; assumption.
Qed.

Lemma predict_sends_queries (env : Env) (st : State) (r : result PredictionResponse)
    (st' : State) :
  model st <> None -> expected_feature_names st <> [] ->
  predict_from_prometheus env st = (r, st') ->
  count_events is_query st' = (6 + count_events is_query st)%nat.
Proof.
  intros Hm Hn. rewrite predict_from_prometheus_run. unfold predict_run.
  destruct (model st) as [mdl|]; [|contradiction].
  destruct (expected_feature_names st) as [|n ns]; [contradiction|].
  destruct (after_acquisition_push env st) as (eva & Ea & Qa & _).
  assert (Hq : forall evs, filter is_query evs = [] ->
                 count_events is_query (push evs (after_acquisition env st))
                 = (6 + count_events is_query st)%nat).
  { intros evs F. rewrite Ea, push_push, count_events_push, filter_app, F.
    cbn [app]. now rewrite Qa. }
  destruct (build_feature_vector (n :: ns) (snapshot env st)) as [x|e].
  - destruct (predict mdl x) as [raw|e].
    + destruct (confidence_run_push mdl x (push [EvPredict x] (after_acquisition env st)))
        as (evc & Ec & Qc & _).
      destruct (confidence_run mdl x _) as [conf st3]. cbn [snd] in Ec.
      destruct (replica_count raw) as [pods|e];
        [destruct (float_of_int pods) as [value|e]|];
        intros H; injection H as _ <-; rewrite Ec, ?push_push.
      * unfold count_events. cbn [push publish trace filter is_query].
        fold (count_events is_query
                (push (evc ++ [EvPredict x]) (after_acquisition env st))).
        apply Hq. now rewrite filter_app, Qc.
      * change (count_events is_query
                  (counted (push (evc ++ [EvPredict x]) (after_acquisition env st))))
          with (count_events is_query
                  (push (evc ++ [EvPredict x]) (after_acquisition env st))).
        apply Hq. now rewrite filter_app, Qc.
      * apply Hq. now rewrite filter_app, Qc.
    + intros H. injection H as _ <-. now apply Hq.
  - intros H. injection H as _ <-. rewrite <- (push_nil (after_acquisition env st)).
    now apply Hq.
Qed.

(** X16: a process started from a successful [_startup] is ready: the
    model is loaded with a non-empty list of feature names, so the
    prediction endpoint gets past its 503 check and sends the six queries,
    and [health_check] reports the model loaded with the number of names;
    it says healthy when the truth value of the estimator is true, as it
    is for an estimator that defines neither [__bool__] nor [__len__],
    unhealthy when it is false, and raises when it raises. *)
Theorem successful_startup_is_ready (disk : Disk) (names0 : json) (st : State)
    (Hok : load_ok (_startup disk names0) = true)
    (Hs : serving_state (_startup disk names0) = Some st) :
  model st <> None
  /\ expected_feature_names st <> []
  /\ (forall env r st',
        predict_from_prometheus env st = (r, st') ->
        count_events is_query st' = 6%nat)
  /\ (forall m b,
        model st = Some m -> truth m = Ok b ->
        forall env, exists h st',
          health_check env st = (Ok h, st')
          /\ status h = (if b then "healthy" else "unhealthy")
          /\ model_loaded h = true
          /\ (0 < expected_features h)%nat)
  /\ (forall m e,
        model st = Some m -> truth m = Raise e ->
        forall env, fst (health_check env st) = Raise e).
Proof.
  destruct (startup_keeps_globals disk names0) as (Eo & Em & En).
  rewrite Eo in Hok.
  destruct (proj1 (load_ok_model disk names0) Hok) as (art & n & Hm & L & Pn).
  unfold serving_state in Hs. rewrite Em, En, Hm in Hs.
  destruct (names_of_json _) as [names|] eqn:Nj; [|discriminate].
  injection Hs as <-. cbn [model expected_feature_names].
  assert (Hn : names <> []).
  { destruct (load_names (load_model_and_features disk names0)); try discriminate.
    cbn [names_of_json] in Nj. cbn [py_len] in L. injection L as <-.
    pose proof (strings_of_length _ _ Nj). destruct names; [cbn in *; lia|discriminate]. }
  split; [discriminate|]. split; [exact Hn|]. split; [|split].
  - intros env r st' H.
    apply (predict_sends_queries env _ r st') in H; [exact H|discriminate|exact Hn].
  - intros m b Hmodel Ht env. injection Hmodel as <-.
    rewrite health_check_run. cbn [model expected_feature_names]. rewrite Ht.
    do 2 eexists. split; [reflexivity|].
    cbn [status model_loaded expected_features].
    split; [reflexivity|]. split; [reflexivity|].
    destruct names; [contradiction|cbn; lia].
  - intros m e Hmodel Ht env. injection Hmodel as <-.
    rewrite health_check_run. cbn [model]. rewrite Ht. reflexivity.
Qed.

Lemma successful_startup_is_ready_witness :
  exists st,
    serving_state (_startup StartupFixture.disk_full (JList [])) = Some st
    /\ expected_feature_names st = ["cpu_usage"; "memory_usage"]
    /\ model st <> None
    /\ exists h st', health_check Fixture.env_cpu_mem st = (Ok h, st')
                     /\ status h = "healthy".
Proof.
  assert (Hok : load_ok (_startup StartupFixture.disk_full (JList [])) = true)
    by reflexivity.
  destruct (serving_state (_startup StartupFixture.disk_full (JList []))) as [st|] eqn:Hs;
    [|discriminate Hs].
  exists st.
  destruct (successful_startup_is_ready _ _ st Hok Hs) as (Hm & _ & _ & Hh & _).
  vm_compute in Hs. injection Hs as <-.
  split; [reflexivity|]. split; [reflexivity|]. split; [exact Hm|].
  destruct (Hh Fixture.model_first true eq_refl eq_refl Fixture.env_cpu_mem)
    as (h & st' & E & S & _).
  exists h, st'. split; [exact E|exact S].
Defined.



Lemma metadata_names_of_dict (disk : Disk) (path : string)
    (items : list (string * json)) :
  isfile disk path = true ->
  json_load disk path = Ok (JDict items) ->
  _load_feature_names_from_metadata disk path
  = (let selected := match lookup "selected_features" items with
                     | Some v => v
                     | None => JList []
                     end in
     if Py.truthy selected then selected
     else match lookup "feature_names" items with
          | Some v => v
          | None => JList []
          end, []).
Proof.
  intros Hf Hl. unfold _load_feature_names_from_metadata. rewrite Hf, Hl.
  cbn [negb rbind get_default]. cbv zeta.
  destruct (Py.truthy _); reflexivity.
Qed.

(** X18: when the model loads and the metadata file is a JSON object, its
    feature list wins over introspection: a non-empty [selected_features]
    list of strings is taken whatever [feature_names] and [n_features_in_]
    say, and [feature_names] is taken when [selected_features] is missing
    or empty; the load succeeds with these names and logs their number,
    with no warning. *)
Theorem metadata_names_take_precedence (disk : Disk) (names0 : json) (art : Artifact)
    (items : list (string * json)) (name : string) (names : list string)
    (Hj : joblib_load disk (MODEL_PATH disk) = Ok art)
    (Hf : isfile disk (MODEL_METADATA_PATH disk) = true)
    (Hl : json_load disk (MODEL_METADATA_PATH disk) = Ok (JDict items))
    (Hsel : lookup "selected_features" items = Some (JList (map JStr (name :: names)))
            \/ ((lookup "selected_features" items = None
                 \/ lookup "selected_features" items = Some (JList []))
                /\ lookup "feature_names" items
                   = Some (JList (map JStr (name :: names))))) :
  let r := load_model_and_features disk names0 in
  load_ok r = true
  /\ load_model r = Some (estimator art)
  /\ load_names r = JList (map JStr (name :: names))
  /\ load_log r = [LogInfo (ModelLoaded (MODEL_PATH disk));
                   LogInfo (ModelExpects (S (List.length names)))]
  /\ exists st, serving_state r = Some st
                /\ expected_feature_names st = name :: names.
Proof.
  cbv zeta.
  assert (E : _load_feature_names_from_metadata disk (MODEL_METADATA_PATH disk)
              = (JList (map JStr (name :: names)), [])).
  { rewrite (metadata_names_of_dict disk _ items Hf Hl). cbv zeta.
    destruct Hsel as [-> | [[-> | ->] ->]]; reflexivity. }
  unfold load_model_and_features. rewrite Hj, E.
  cbn [Py.truthy map negb py_len load_ok load_model load_names load_log app List.length].
  rewrite length_map. repeat split.
  unfold serving_state. cbn [load_names load_model names_of_json].
  change (JStr name :: map JStr names) with (map JStr (name :: names)).
  rewrite strings_of_map_JStr. eexists. split; reflexivity.
Qed.

Lemma metadata_names_take_precedence_witness :
  load_names (load_model_and_features StartupFixture.disk_full (JList []))
  = JList [JStr "cpu_usage"; JStr "memory_usage"]
  /\ load_names (load_model_and_features
                   (StartupFixture.disk_of (Ok (StartupFixture.artifact (Some 7)))
                      (Some (Ok StartupFixture.metadata_no_selection)))
                   (JList []))
     = JList [JStr "cpu_usage"; JStr "request_rate"].
Proof.
  split.
  - apply (metadata_names_take_precedence StartupFixture.disk_full (JList [])
             (StartupFixture.artifact (Some 3))
             [ ("model_type", JStr "RandomForestRegressor");
               ("selected_features", JList [JStr "cpu_usage"; JStr "memory_usage"]);
               ("feature_names", JList [JStr "cpu_usage"; JStr "memory_usage";
                                        JStr "request_rate"]) ]
             "cpu_usage" ["memory_usage"] eq_refl eq_refl eq_refl).
    left. reflexivity.
  - apply (metadata_names_take_precedence
             (StartupFixture.disk_of (Ok (StartupFixture.artifact (Some 7)))
                (Some (Ok StartupFixture.metadata_no_selection)))
             (JList []) (StartupFixture.artifact (Some 7))
             [ ("selected_features", JList []);
               ("feature_names", JList [JStr "cpu_usage"; JStr "request_rate"]) ]
             "cpu_usage" ["request_rate"] eq_refl eq_refl eq_refl).
    right. split; [right|]; reflexivity.
Defined.

Lemma synthetic_names_length (n : Z) :
  List.length (synthetic_names n) = Z.to_nat n.
Proof. unfold synthetic_names. now rewrite length_map, length_seq. Qed.

Lemma synthetic_names_unknown (metrics : PrometheusMetrics)
    (base : list (string * float)) (n : Z) :
  base_metrics metrics = Ok base ->
  map (feature_value base) (synthetic_names n) = repeat zero (Z.to_nat n).
Proof.
  unfold base_metrics, Py.truediv.
  destruct (is_zero _); [discriminate|]. cbn [rbind]. intros H. injection H as <-.
  unfold synthetic_names. generalize 0%nat.
  induction (Z.to_nat n) as [|k IH]; intros start; [reflexivity|].
  cbn [seq map repeat]. rewrite IH. f_equal.
Qed.

(** X19: when the model loads but the metadata file is absent or cannot
    be read, and the estimator has [n_features_in_ = n > 0], the load
    succeeds with the [n] synthetic names [f_0 .. f_(n-1)] and a warning.
    None of these names is known to the aligner: on every snapshot (with a
    non-zero denominator) the feature vector is [n] zeros, so the
    predictor never sees a metric. *)
Theorem synthetic_names_blind_the_model (disk : Disk) (names0 : json)
    (art : Artifact) (n : Z)
    (Hj : joblib_load disk (MODEL_PATH disk) = Ok art)
    (Hmeta : isfile disk (MODEL_METADATA_PATH disk) = false
             \/ exists ex, json_load disk (MODEL_METADATA_PATH disk) = Raise ex)
    (Hn : n_features_in_ art = Some n)
    (Hpos : 0 < n) :
  let r := load_model_and_features disk names0 in
  load_ok r = true
  /\ load_names r = JList (map JStr (synthetic_names n))
  /\ In (LogWarning UsingSyntheticNames) (load_log r)
  /\ exists st,
       serving_state r = Some st
       /\ model st = Some (estimator art)
       /\ expected_feature_names st = synthetic_names n
       /\ List.length (expected_feature_names st) = Z.to_nat n
       /\ forall metrics,
            is_zero (add (memory_usage metrics) eps) = false ->
            build_feature_vector (expected_feature_names st) metrics
            = Ok (repeat zero (Z.to_nat n)).
Proof.
  cbv zeta.
  assert (E : exists log1, _load_feature_names_from_metadata disk (MODEL_METADATA_PATH disk)
                           = (JList [], log1)).
  { unfold _load_feature_names_from_metadata.
    destruct (isfile disk (MODEL_METADATA_PATH disk)) eqn:Hf; cbn [negb].
    - destruct Hmeta as [|[ex Hl]]; [discriminate|]. rewrite Hl. cbn [rbind].
      eexists. reflexivity.
    - eexists. reflexivity. }
  destruct E as (log1 & E).
  assert (T : Py.truthy (JList (map JStr (synthetic_names n))) = true).
  { pose proof (synthetic_names_length n) as L.
    destruct (synthetic_names n); [cbn in L; lia|reflexivity]. }
  unfold load_model_and_features. rewrite Hj, E. cbn [Py.truthy negb]. rewrite Hn, T.
  cbn [negb py_len load_ok load_model load_names load_log].
  split; [reflexivity|]. split; [reflexivity|]. split.
  - rewrite !in_app_iff. left. right. right. left. reflexivity.
  - unfold serving_state. cbn [load_names load_model names_of_json].
    rewrite strings_of_map_JStr. eexists. split; [reflexivity|].
    cbn [model expected_feature_names].
    split; [reflexivity|]. split; [reflexivity|]. split; [apply synthetic_names_length|].
    intros metrics Hz.
    destruct (base_metrics_ok metrics Hz) as (base & Hb & _).
    rewrite (build_feature_vector_map _ metrics base Hb).
    now rewrite (synthetic_names_unknown metrics base n Hb).
Qed.

Lemma synthetic_names_blind_the_model_witness :
  load_names (load_model_and_features StartupFixture.disk_no_metadata (JList []))
  = JList [JStr "f_0"; JStr "f_1"; JStr "f_2"]
  /\ build_feature_vector ["f_0"; "f_1"; "f_2"]
       (snapshot Fixture.env_cpu_mem Fixture.not_loaded)
     = Ok [zero; zero; zero].
Proof.
  destruct (synthetic_names_blind_the_model StartupFixture.disk_no_metadata (JList [])
              (StartupFixture.artifact (Some 3)) 3 eq_refl (or_introl eq_refl)
              eq_refl eq_refl)
    as (_ & N & _ & st & Hs & _ & En & _ & B).
  split; [rewrite N; reflexivity|].
  specialize (B (snapshot Fixture.env_cpu_mem Fixture.not_loaded)
                ltac:(vm_compute; reflexivity)).
  rewrite En in B. exact B.
Defined.

(** X20: a model that loads is discarded when no feature names can be
    found for it: with the metadata file absent or unreadable and no
    positive [n_features_in_], [load_model_and_features] raises its own
    [ValueError], catches it, logs it, resets the model to [None] and
    returns [False], leaving the empty list as feature names. *)
Theorem no_feature_names_discards_model (disk : Disk) (names0 : json) (art : Artifact)
    (Hj : joblib_load disk (MODEL_PATH disk) = Ok art)
    (Hmeta : isfile disk (MODEL_METADATA_PATH disk) = false
             \/ exists ex, json_load disk (MODEL_METADATA_PATH disk) = Raise ex)
    (Hn : n_features_in_ art = None
          \/ exists n, n_features_in_ art = Some n /\ n <= 0) :
  let r := load_model_and_features disk names0 in
  load_ok r = false
  /\ load_model r = None
  /\ load_names r = JList []
  /\ last (load_log r) (LogInfo (ModelExpects 0))
     = LogError (FailedToLoadModel
                   (ValueError "Could not determine expected feature names for the model"))
  /\ exists st, serving_state r = Some st
                /\ model st = None /\ expected_feature_names st = [].
Proof.
  cbv zeta.
  assert (E : exists log1, _load_feature_names_from_metadata disk (MODEL_METADATA_PATH disk)
                           = (JList [], log1)).
  { unfold _load_feature_names_from_metadata.
    destruct (isfile disk (MODEL_METADATA_PATH disk)) eqn:Hf; cbn [negb].
    - destruct Hmeta as [|[ex Hl]]; [discriminate|]. rewrite Hl. cbn [rbind].
      eexists. reflexivity.
    - eexists. reflexivity. }
  destruct E as (log1 & E).
  unfold load_model_and_features. rewrite Hj, E. cbn [Py.truthy negb].
  destruct Hn as [-> | (n & -> & Hle)].
  - cbn [Py.truthy negb load_ok load_model load_names load_log].
    do 3 (split; [reflexivity|]). split; [now rewrite last_last|].
    eexists. split; [reflexivity|]. split; reflexivity.
  - assert (S : synthetic_names n = []).
    { unfold synthetic_names. replace (Z.to_nat n) with 0%nat by lia. reflexivity. }
    rewrite S. cbn [map Py.truthy negb load_ok load_model load_names load_log].
    do 3 (split; [reflexivity|]). split; [now rewrite last_last|].
    eexists. split; [reflexivity|]. split; reflexivity.
Qed.

Lemma no_feature_names_discards_model_witness :
  load_ok (load_model_and_features StartupFixture.disk_bare (JList [JStr "stale"])) = false
  /\ load_names (load_model_and_features StartupFixture.disk_bare (JList [JStr "stale"]))
     = JList [].
Proof.
  destruct (no_feature_names_discards_model StartupFixture.disk_bare
              (JList [JStr "stale"]) (StartupFixture.artifact None)
              eq_refl (or_introl eq_refl) (or_introl eq_refl))
    as (O & _ & N & _).
  split; [exact O|exact N].
Defined.
